(** * AI Salary Navigator: the prediction contract and input normalisation

    A shallow embedding of the TypeScript sources of the career-finder
    front end, and the properties its specification states about them.

    - [JS]                 the JavaScript primitives the code relies on
                           (strings, numbers, JSON values);
    - [Types]              lib/types.ts ([VALIDATION_RULES], [PredictionResult]);
    - [PredictionForm]     components/forms/PredictionForm.tsx;
    - [PredictionResults]  components/results/PredictionResults.tsx;
    - [PredictRoute]       app/api/predict/route.ts;
    - [PredictPage]        app/predict/page.tsx;
    - [Analytics]          app/analytics/page.tsx.

    Strings are sequences of code units, as in JavaScript; the model keeps
    the code units below 256 (Latin-1), on which [length], [includes],
    [trim] and [toLowerCase] are exactly JavaScript's.  Numbers that the
    code computes with ([Math.round], [/], [*]) are IEEE 754 binary64
    values; counters, lengths and the years field (always the result of
    [parseInt(..) || 0]) are integers. *)

From Stdlib Require Import ZArith NArith List String Ascii Bool Lia.
From Stdlib Require Import Floats Uint63.
From stdpp Require Import gmap strings list fin_maps pretty.

Local Open Scope string_scope.

(* Decimal literals such as 0.3 denote the nearest binary64 value, as they
   do in JavaScript. *)
Set Warnings "-inexact-float,-register-all".

(* ===================================================================== *)
(** * JavaScript primitives *)
(* ===================================================================== *)

Module JS.

(** ** Strings *)

(** [s.includes(sub)]: [sub] occurs in [s] at some position. *)
Fixpoint includes (s sub : string) : bool :=
  String.prefix sub s
  || match s with
     | EmptyString => false
     | String _ s' => includes s' sub
     end.

(** [!s] on a string: only the empty string is falsy. *)
Definition isEmpty (s : string) : bool :=
  match s with EmptyString => true | String _ _ => false end.

(** Upper-case letters of Latin-1: A-Z, and U+00C0-U+00DE without the
    multiplication sign U+00D7.  Their lower-case form is 32 further. *)
Definition isUpper (c : ascii) : bool :=
  let n := N_of_ascii c in
  ((65 <=? n) && (n <=? 90) || (192 <=? n) && (n <=? 222) && negb (n =? 215))%N.

Definition lowerChar (c : ascii) : ascii :=
  if isUpper c then ascii_of_N (N_of_ascii c + 32) else c.

(** [s.toLowerCase()] *)
Fixpoint toLowerCase (s : string) : string :=
  match s with
  | EmptyString => EmptyString
  | String c s' => String (lowerChar c) (toLowerCase s')
  end.

(** WhiteSpace and LineTerminator code units below 256: TAB, LF, VT, FF,
    CR, SP and NBSP. *)
Definition isWhiteSpace (c : ascii) : bool :=
  let n := N_of_ascii c in
  ((9 <=? n) && (n <=? 13) || (n =? 32) || (n =? 160))%N.

Fixpoint trimStart (s : string) : string :=
  match s with
  | EmptyString => EmptyString
  | String c s' => if isWhiteSpace c then trimStart s' else s
  end.

Fixpoint trimEnd (s : string) : string :=
  match s with
  | EmptyString => EmptyString
  | String c s' =>
      let t := trimEnd s' in
      if isEmpty t && isWhiteSpace c then EmptyString else String c t
  end.

(** [s.trim()] *)
Definition trim (s : string) : string := trimEnd (trimStart s).

(** A string of [n] copies of [c] ([c.repeat(n)]). *)
Fixpoint repeat (c : ascii) (n : nat) : string :=
  match n with
  | O => EmptyString
  | S n' => String c (repeat c n')
  end.

(** [l.includes(x)] on an array of strings (strict equality). *)
Definition arrayIncludes (l : list string) (x : string) : bool :=
  existsb (String.eqb x) l.

(** ** Numbers (IEEE 754 binary64) *)

(** [!x] is true for [0], [-0] and [NaN]; [truthy] is its negation. *)
Definition truthy (x : float) : bool :=
  negb (PrimFloat.is_nan x || PrimFloat.is_zero x).

(** A property that is missing, or is [0] or [-0]. *)
Definition absentOrZero (x : option float) : bool :=
  match x with
  | Some v => PrimFloat.is_zero v
  | None => true
  end.

(** [x || d] on numbers. *)
Definition orNumber (x : option float) (d : float) : float :=
  match x with
  | Some v => if truthy v then v else d
  | None => d
  end.

(** An integer of magnitude at most 2^53 as a number. *)
Definition ofInteger (z : Z) : float :=
  if (z <? 0)%Z then PrimFloat.opp (PrimFloat.of_uint63 (Uint63.of_Z (- z)))
  else PrimFloat.of_uint63 (Uint63.of_Z z).

(** [Math.round(x)]: the integer nearest to [x], ties towards +infinity;
    [NaN], the infinities and the zeros are returned as they are, and a
    result of zero keeps the sign of [x].  A finite [x] is [m * 2^e] with
    the sign [s]; when [e] is negative the nearest integer is
    [floor ((2 * x + 1) / 2)], computed exactly on integers. *)
Definition Math_round (x : float) : float :=
  match Prim2SF x with
  | S754_finite s m e =>
      if (0 <=? e)%Z then x
      else
        let d := (2 ^ (- e))%Z in
        let n := if s then Z.neg m else Z.pos m in
        let r := ((2 * n + d) / (2 * d))%Z in
        if (r =? 0)%Z then (if s then neg_zero else zero) else ofInteger r
  | _ => x
  end.

(** [Math.min(a, b)] and [Math.max(a, b)]: [NaN] if either is [NaN];
    [-0] counts as smaller than [+0].  When neither argument is below the
    other they are equal numbers, and the same value unless both are
    zeros, where the sign of the first decides. *)
Definition Math_min (a b : float) : float :=
  if PrimFloat.is_nan a then a
  else if PrimFloat.is_nan b then b
  else if PrimFloat.ltb a b then a
  else if PrimFloat.ltb b a then b
  else match PrimFloat.classify a with NZero => a | _ => b end.

Definition Math_max (a b : float) : float :=
  if PrimFloat.is_nan a then a
  else if PrimFloat.is_nan b then b
  else if PrimFloat.ltb a b then b
  else if PrimFloat.ltb b a then a
  else match PrimFloat.classify a with PZero => a | _ => b end.

(** ** Property keys

    A key is an array index if it is the canonical text of an integer from
    0 to 2^32 - 2: digits only, no leading zero. *)

Definition digit (c : ascii) : option N :=
  let n := N_of_ascii c in
  if ((48 <=? n) && (n <=? 57))%N then Some (n - 48)%N else None.

Fixpoint digits (s : string) (acc : N) : option N :=
  match s with
  | EmptyString => Some acc
  | String c s' =>
      match digit c with
      | Some d => digits s' (10 * acc + d)%N
      | None => None
      end
  end.

Definition arrayIndex (k : string) : option N :=
  match k with
  | EmptyString => None
  | String c rest =>
      if Ascii.eqb c "0"%char then (if isEmpty rest then Some 0%N else None)
      else
        match digits k 0 with
        | Some n => if (n <? 4294967295)%N then Some n else None
        | None => None
        end
  end.

(** ** JSON values

    What [response.json()] and [request.json()] resolve to.  An object is
    the list of its properties in order; its keys are distinct. *)

Inductive JSON : Type :=
  | JNull
  | JBool (b : bool)
  | JNumber (x : float)
  | JString (s : string)
  | JArray (items : list JSON)
  | JObject (fields : list (string * JSON)).

Fixpoint lookupField (fields : list (string * JSON)) (k : string) : option JSON :=
  match fields with
  | [] => None
  | (k', v) :: fields' => if String.eqb k' k then Some v else lookupField fields' k
  end.

(** [v.k] for a value [v] other than [null] (on which it throws) and a
    key that no prototype defines: [None] is [undefined]. *)
Definition prop (k : string) (v : JSON) : option JSON :=
  match v with
  | JObject fields => lookupField fields k
  | _ => None
  end.

(** ToBoolean; [None] is [undefined]. *)
Definition toBoolean (v : option JSON) : bool :=
  match v with
  | None => false
  | Some JNull => false
  | Some (JBool b) => b
  | Some (JNumber x) => truthy x
  | Some (JString s) => negb (isEmpty s)
  | Some (JArray _) => true
  | Some (JObject _) => true
  end.

(** [v === 'text'] *)
Definition isString (text : string) (v : option JSON) : bool :=
  match v with
  | Some (JString s) => String.eqb s text
  | _ => false
  end.

(** [a || b], where [b] is a value. *)
Definition orValue (a : option JSON) (b : JSON) : JSON :=
  match a with
  | Some v => if toBoolean a then v else b
  | None => b
  end.

Fixpoint joinWith (sep : string) (l : list string) : string :=
  match l with
  | [] => ""
  | [x] => x
  | x :: l' => x +:+ sep +:+ joinWith sep l'
  end.

Section ToString.

(** Number::toString, the shortest decimal text that reads back as the
    number, is left to the engine. *)
Variable numberToString : float -> string.

(** ToString on a JSON value, as [new Error(v)] applies it.  An array
    joins its items with commas, [null] items giving the empty text. *)
Fixpoint toString (v : JSON) : string :=
  match v with
  | JNull => "null"
  | JBool true => "true"
  | JBool false => "false"
  | JNumber x => numberToString x
  | JString s => s
  | JArray items =>
      joinWith ","
        (List.map (fun i => match i with JNull => "" | _ => toString i end) items)
  | JObject _ => "[object Object]"
  end.

End ToString.

(** ** The Fetch API *)

(** A response: its status line, its [content-type] header ([None] when
    [headers.get] gives [null]) and what [json()] resolves to, or the
    message of the SyntaxError it rejects with.  The body as text only
    ever goes to the console. *)
Record Response : Type := mkResponse {
  status : Z;
  statusText : string;
  contentType : option string;
  bodyJson : string + JSON
}.

(** [response.ok]: the status is in the range 200-299. *)
Definition ok (r : Response) : bool :=
  (200 <=? status r)%Z && (status r <=? 299)%Z.

(** What [await fetch(..)] does: reject with an error, or resolve. *)
Inductive FetchResult : Type :=
  | FetchRejects (message : string)
  | FetchResolves (response : Response).

(** The message of the TypeError that reading a property of [null] raises;
    its wording is the engine's (V8's here). *)
Definition nullPropertyMessage (k : string) : string :=
  "Cannot read properties of null (reading '" +:+ k +:+ "')".

End JS.

(* ===================================================================== *)
(** * lib/types.ts *)
(* ===================================================================== *)

Module Types.

Inductive ExperienceLevel : Type :=
  | EntryLevel
  | MidLevel
  | SeniorLevel
  | Executive.

(** The text of each tier, as the union type of [PredictionInput] has it. *)
Definition experienceLevelText (l : ExperienceLevel) : string :=
  match l with
  | EntryLevel => "Entry Level"
  | MidLevel => "Mid Level"
  | SeniorLevel => "Senior Level"
  | Executive => "Executive"
  end.

(** [VALIDATION_RULES] *)
Module VALIDATION_RULES.
Module jobTitle.
Definition minLength : Z := 2.
Definition maxLength : Z := 200.
Definition required : bool := true.
End jobTitle.
Module yearsExperience.
Definition min : Z := 0.
Definition max : Z := 50.
Definition required : bool := true.
End yearsExperience.
Module remoteRatio.
Definition min : Z := 0.
Definition max : Z := 100.
Definition step : Z := 10.
End remoteRatio.
Module requiredSkills.
Definition maxItems : Z := 20.
Definition maxLength : Z := 100.
End requiredSkills.
Module benefits.
Definition maxItems : Z := 15.
Definition maxLength : Z := 100.
End benefits.
Module jobDescription.
Definition maxLength : Z := 10000.
End jobDescription.
End VALIDATION_RULES.

(** [PredictionResult].  Every property is optional here: the value comes
    from the service's JSON and the presenter guards each read. *)
Record ConfidenceInterval : Type := mkInterval {
  lower : option float;
  upper : option float
}.

Record Factor : Type := mkFactor {
  name : string;
  impact : float;
  description : string
}.

Record Metadata : Type := mkMetadata {
  model_version : option string;
  model_type : option string;
  model_accuracy : option float;
  prediction_timestamp : option string;
  features_processed : option float
}.

Record PredictionResult : Type := mkResult {
  predictedSalary : option float;
  confidenceInterval : option ConfidenceInterval;
  similarJobs : option float;
  marketPosition : option string;
  factors : option (list Factor);
  metadata : option Metadata
}.

(** [PredictionInput], the payload of a prediction request. *)
Record PredictionInput : Type := mkInput {
  inputJobTitle : string;
  inputYearsExperience : Z;
  inputExperienceLevel : ExperienceLevel;
  inputCompanyLocation : string;
  inputCompanySize : string;
  inputRemoteRatio : Z;
  inputRequiredSkills : list string;
  inputBenefits : list string;
  inputJobDescription : string
}.

(** The type guards and the constant lists. *)
Definition isValidExperienceLevel (level : string) : bool :=
  JS.arrayIncludes ["Entry Level"; "Mid Level"; "Senior Level"; "Executive"] level.

Definition isValidCompanySize (size : string) : bool :=
  JS.arrayIncludes ["Small"; "Medium"; "Large"; "Enterprise"] size.

Definition isValidMarketPosition (position : string) : bool :=
  JS.arrayIncludes ["Below Average"; "Average"; "Above Average"; "Top Tier"] position.

Definition EXPERIENCE_LEVELS : list string :=
  ["Entry Level"; "Mid Level"; "Senior Level"; "Executive"].

Definition COMPANY_SIZES : list string :=
  ["Small"; "Medium"; "Large"; "Enterprise"].

Definition SUPPORTED_LOCATIONS : list string :=
  ["United States"; "Canada"; "United Kingdom"; "Germany"; "France"; "Denmark";
   "Sweden"; "Singapore"; "Israel"; "Austria"; "India"; "China"; "Other"].

End Types.

(* ===================================================================== *)
(** * components/forms/PredictionForm.tsx *)
(* ===================================================================== *)

Module PredictionForm.
Import JS Types.

(** ** Experience tier *)

Definition getExperienceLevelFromYears (years : Z) : ExperienceLevel :=
  if (years <=? 2)%Z then EntryLevel
  else if (years <=? 5)%Z then MidLevel
  else if (years <=? 10)%Z then SeniorLevel
  else Executive.

(** ** Skill recommendation *)

Record SkillSet : Type := mkSkills {
  core : list string;
  advanced : list string;
  tools : list string
}.

Definition noSkills : SkillSet := mkSkills [] [] [].

(** [ROLE_SKILL_MAPPING]: an object literal with string keys, which
    [Object.entries] walks in the order the keys are written. *)
Definition ROLE_SKILL_MAPPING : list (string * SkillSet) :=
  [ ("data scientist",
      mkSkills
        ["Python"; "Machine Learning"; "Statistics"; "SQL"; "Pandas"; "NumPy"]
        ["TensorFlow"; "PyTorch"; "Scikit-learn"; "Deep Learning"; "R"]
        ["Jupyter"; "Git"; "Docker"; "AWS"]);
    ("ml engineer",
      mkSkills
        ["Python"; "Machine Learning"; "TensorFlow"; "PyTorch"; "Docker"]
        ["Kubernetes"; "MLOps"; "Deep Learning"; "Model Deployment"]
        ["Git"; "AWS"; "Azure"; "GCP"; "Spark"]);
    ("data engineer",
      mkSkills
        ["Python"; "SQL"; "Spark"; "Hadoop"; "ETL"]
        ["Kafka"; "Airflow"; "Snowflake"; "BigQuery"]
        ["Docker"; "Kubernetes"; "AWS"; "Git"; "MongoDB"]);
    ("data analyst",
      mkSkills
        ["SQL"; "Python"; "Excel"; "Statistics"; "Data Visualization"]
        ["Tableau"; "Power BI"; "R"; "Pandas"]
        ["Git"; "Jupyter"; "Google Analytics"]);
    ("ai researcher",
      mkSkills
        ["Python"; "Deep Learning"; "TensorFlow"; "PyTorch"; "Research"]
        ["NLP"; "Computer Vision"; "Reinforcement Learning"; "GANs"]
        ["Git"; "Jupyter"; "LaTeX"; "Docker"]);
    ("software engineer",
      mkSkills
        ["Python"; "Git"; "Algorithms"; "Data Structures"]
        ["System Design"; "Microservices"; "APIs"; "Testing"]
        ["Docker"; "Kubernetes"; "AWS"; "CI/CD"]);
    ("product manager",
      mkSkills
        ["Product Strategy"; "Analytics"; "A/B Testing"; "User Research"]
        ["SQL"; "Data Analysis"; "Market Research"; "Roadmapping"]
        ["JIRA"; "Figma"; "Google Analytics"; "Mixpanel"]);
    ("devops engineer",
      mkSkills
        ["Docker"; "Kubernetes"; "AWS"; "CI/CD"; "Linux"]
        ["Terraform"; "Ansible"; "Monitoring"; "Security"]
        ["Git"; "Jenkins"; "Prometheus"; "Grafana"]);
    ("backend engineer",
      mkSkills
        ["Python"; "APIs"; "Databases"; "System Design"]
        ["Microservices"; "Caching"; "Message Queues"; "Security"]
        ["Docker"; "Git"; "PostgreSQL"; "Redis"]);
    ("frontend engineer",
      mkSkills
        ["JavaScript"; "React"; "HTML"; "CSS"; "TypeScript"]
        ["Next.js"; "Vue.js"; "State Management"; "Testing"]
        ["Git"; "Webpack"; "npm"; "Figma"]) ].

(** [ROLE_SKILL_MAPPING[key]] for a key of the literal. *)
Fixpoint lookupRole (m : list (string * SkillSet)) (key : string) : SkillSet :=
  match m with
  | [] => noSkills
  | (k, v) :: m' => if String.eqb k key then v else lookupRole m' key
  end.

Definition role (key : string) : SkillSet := lookupRole ROLE_SKILL_MAPPING key.

(** The [for .. of Object.entries(..)] loop: the skills of the first role
    that the lower-cased title includes, if any. *)
Fixpoint exactMatch (m : list (string * SkillSet)) (titleLower : string)
  : option SkillSet :=
  match m with
  | [] => None
  | (r, skills) :: m' =>
      if includes titleLower r then Some skills else exactMatch m' titleLower
  end.

(** The [if .. else if ..] chain for partial matches. *)
Definition partialMatch (titleLower : string) : SkillSet :=
  if includes titleLower "scientist" then role "data scientist"
  else if includes titleLower "engineer" && includes titleLower "ml"
  then role "ml engineer"
  else if includes titleLower "engineer"
          && (includes titleLower "data" || includes titleLower "etl")
  then role "data engineer"
  else if includes titleLower "analyst" then role "data analyst"
  else if includes titleLower "research" then role "ai researcher"
  else if includes titleLower "devops" || includes titleLower "sre"
  then role "devops engineer"
  else if includes titleLower "product" then role "product manager"
  else if includes titleLower "backend" then role "backend engineer"
  else if includes titleLower "frontend" || includes titleLower "react"
          || includes titleLower "ui"
  then role "frontend engineer"
  else if includes titleLower "engineer" then role "software engineer"
  else noSkills.

Definition getRecommendedSkills (jobTitle : string) : SkillSet :=
  if isEmpty jobTitle then noSkills
  else
    let titleLower := toLowerCase jobTitle in
    match exactMatch ROLE_SKILL_MAPPING titleLower with
    | Some skills => skills
    | None => partialMatch titleLower
    end.

(** *** The recommendation as the specification words it

    An ordered list of (predicate, result) pairs, evaluated in sequence on
    the lower-cased title; the first pair whose predicate holds gives the
    result, and three empty sequences are the result when none does. *)

Definition Rule : Type := (string -> bool) * SkillSet.

Fixpoint firstMatch (rules : list Rule) (titleLower : string) : SkillSet :=
  match rules with
  | [] => noSkills
  | (p, r) :: rules' => if p titleLower then r else firstMatch rules' titleLower
  end.

(** (a) one rule per taxonomy key, in the taxonomy's order. *)
Definition exactRules : list Rule :=
  List.map (fun kv : string * SkillSet =>
              ((fun t => includes t (fst kv)), snd kv)) ROLE_SKILL_MAPPING.

(** (b) the heuristic cascade, in its priority order. *)
Definition cascadeRules : list Rule :=
  [ ((fun t => includes t "scientist"), role "data scientist");
    ((fun t => includes t "engineer" && includes t "ml"), role "ml engineer");
    ((fun t => includes t "engineer" && (includes t "data" || includes t "etl")),
      role "data engineer");
    ((fun t => includes t "analyst"), role "data analyst");
    ((fun t => includes t "research"), role "ai researcher");
    ((fun t => includes t "devops" || includes t "sre"), role "devops engineer");
    ((fun t => includes t "product"), role "product manager");
    ((fun t => includes t "backend"), role "backend engineer");
    ((fun t => includes t "frontend" || includes t "react" || includes t "ui"),
      role "frontend engineer");
    ((fun t => includes t "engineer"), role "software engineer") ].

Definition recommendedSkillsSpec (jobTitle : string) : SkillSet :=
  firstMatch (exactRules ++ cascadeRules) (toLowerCase jobTitle).

(** ** Form state

    The [useState] cells of the component that the handlers below read or
    write.  [formData] is [Omit<PredictionInput, 'experienceLevel'>]. *)

Record FormData : Type := mkFormData {
  jobTitle : string;
  yearsExperience : Z;
  companyLocation : string;
  companySize : string;
  remoteRatio : Z;
  requiredSkills : list string;
  benefits : list string;
  jobDescription : string
}.

Record FormState : Type := mkFormState {
  formData : FormData;
  selectedSkills : list string;
  selectedBenefits : list string;
  customSkill : string;
  customBenefit : string;
  errors : gmap string string
}.

Definition initialFormData : FormData :=
  mkFormData "" 0 "United States" "Medium" 0 [] [] "".

Definition initialState : FormState :=
  mkFormState initialFormData [] [] "" "" ∅.

Definition setSelectedSkills (l : list string) (st : FormState) : FormState :=
  mkFormState (formData st) l (selectedBenefits st)
              (customSkill st) (customBenefit st) (errors st).

Definition setCustomSkill (s : string) (st : FormState) : FormState :=
  mkFormState (formData st) (selectedSkills st) (selectedBenefits st)
              s (customBenefit st) (errors st).

Definition setErrors (e : gmap string string) (st : FormState) : FormState :=
  mkFormState (formData st) (selectedSkills st) (selectedBenefits st)
              (customSkill st) (customBenefit st) e.

(** [s.length] and [l.length] as numbers. *)
Definition strLen (s : string) : Z := Z.of_nat (String.length s).
Definition arrLen (l : list string) : Z := Z.of_nat (List.length l).

(** ** Validation *)

(** The mapping [newErrors] that [validateForm] builds, one assignment
    after the other. *)
Definition newErrors (st : FormState) : gmap string string :=
  let fd := formData st in
  let e0 : gmap string string := ∅ in
  (* Job title validation *)
  let e1 :=
    if isEmpty (trim (jobTitle fd)) then
      <["jobTitle" := "Job title is required"]> e0
    else if (strLen (jobTitle fd) <? VALIDATION_RULES.jobTitle.minLength)%Z then
      <["jobTitle" := "Job title must be at least "
                      +:+ pretty VALIDATION_RULES.jobTitle.minLength
                      +:+ " characters"]> e0
    else if (VALIDATION_RULES.jobTitle.maxLength <? strLen (jobTitle fd))%Z then
      <["jobTitle" := "Job title cannot exceed "
                      +:+ pretty VALIDATION_RULES.jobTitle.maxLength
                      +:+ " characters"]> e0
    else e0 in
  (* Years experience validation *)
  let e2 :=
    if (yearsExperience fd <? VALIDATION_RULES.yearsExperience.min)%Z then
      <["yearsExperience" := "Years of experience cannot be negative"]> e1
    else if (VALIDATION_RULES.yearsExperience.max <? yearsExperience fd)%Z then
      <["yearsExperience" := "Years of experience cannot exceed "
                             +:+ pretty VALIDATION_RULES.yearsExperience.max]> e1
    else e1 in
  (* Skills validation *)
  let e3 :=
    if (VALIDATION_RULES.requiredSkills.maxItems <? arrLen (selectedSkills st))%Z then
      <["requiredSkills" := "Cannot select more than "
                            +:+ pretty VALIDATION_RULES.requiredSkills.maxItems
                            +:+ " skills"]> e2
    else e2 in
  (* Benefits validation *)
  let e4 :=
    if (VALIDATION_RULES.benefits.maxItems <? arrLen (selectedBenefits st))%Z then
      <["benefits" := "Cannot select more than "
                      +:+ pretty VALIDATION_RULES.benefits.maxItems
                      +:+ " benefits"]> e3
    else e3 in
  (* Job description validation *)
  let e5 :=
    if negb (isEmpty (jobDescription fd))
       && (VALIDATION_RULES.jobDescription.maxLength <? strLen (jobDescription fd))%Z
    then
      <["jobDescription" := "Job description cannot exceed "
                            +:+ pretty VALIDATION_RULES.jobDescription.maxLength
                            +:+ " characters"]> e4
    else e4 in
  e5.

(** [validateForm]: stores the mapping in the [errors] cell and answers
    whether it has no key. *)
Definition validateForm (st : FormState) : FormState * bool :=
  let e := newErrors st in
  (setErrors e st, bool_decide (size e = 0)).

(** *** The field rules as the specification lists them

    [titleBlank] is the one condition the code adds to the listed length
    bounds: a title that is empty once trimmed. *)

Definition titleBlank (st : FormState) : Prop :=
  trim (jobTitle (formData st)) = "".
Definition titleTooShort (st : FormState) : Prop :=
  (strLen (jobTitle (formData st)) < 2)%Z.
Definition titleTooLong (st : FormState) : Prop :=
  (200 < strLen (jobTitle (formData st)))%Z.
Definition yearsNegative (st : FormState) : Prop :=
  (yearsExperience (formData st) < 0)%Z.
Definition yearsAboveMax (st : FormState) : Prop :=
  (50 < yearsExperience (formData st))%Z.
Definition tooManySkills (st : FormState) : Prop :=
  (20 < arrLen (selectedSkills st))%Z.
Definition tooManyBenefits (st : FormState) : Prop :=
  (15 < arrLen (selectedBenefits st))%Z.
Definition descriptionTooLong (st : FormState) : Prop :=
  (10000 < strLen (jobDescription (formData st)))%Z.

(** The constraints of section 4.2: title length bounds, years bounds,
    skills and benefits counts, description length. *)
Definition listedRulesHold (st : FormState) : Prop :=
  ~ titleTooShort st /\ ~ titleTooLong st /\
  ~ yearsNegative st /\ ~ yearsAboveMax st /\
  ~ tooManySkills st /\ ~ tooManyBenefits st /\ ~ descriptionTooLong st.

(** The message each field gets, from that field alone. *)
Definition jobTitleError (title : string) : option string :=
  if isEmpty (trim title) then Some "Job title is required"
  else if (strLen title <? 2)%Z then Some "Job title must be at least 2 characters"
  else if (200 <? strLen title)%Z then Some "Job title cannot exceed 200 characters"
  else None.

Definition yearsError (years : Z) : option string :=
  if (years <? 0)%Z then Some "Years of experience cannot be negative"
  else if (50 <? years)%Z then Some "Years of experience cannot exceed 50"
  else None.

Definition skillsError (skills : list string) : option string :=
  if (20 <? arrLen skills)%Z then Some "Cannot select more than 20 skills" else None.

Definition benefitsError (chosen : list string) : option string :=
  if (15 <? arrLen chosen)%Z then Some "Cannot select more than 15 benefits" else None.

Definition descriptionError (text : string) : option string :=
  if (10000 <? strLen text)%Z
  then Some "Job description cannot exceed 10000 characters"
  else None.

(** A draft whose fields, but for the job title, are the initial ones. *)
Definition draftWithTitle (title : string) : FormState :=
  mkFormState (mkFormData title 0 "United States" "Medium" 0 [] [] "")
              [] [] "" "" ∅.

(** A draft with [years] of experience and a valid title. *)
Definition draftWithYears (years : Z) : FormState :=
  mkFormState (mkFormData "Data Scientist" years "United States" "Medium" 0 [] [] "")
              [] [] "" "" ∅.

(** The same draft with other company fields. *)
Definition withCompany (location size : string) (ratio : Z) (st : FormState)
  : FormState :=
  let fd := formData st in
  mkFormState
    (mkFormData (jobTitle fd) (yearsExperience fd) location size ratio
                (requiredSkills fd) (benefits fd) (jobDescription fd))
    (selectedSkills st) (selectedBenefits st)
    (customSkill st) (customBenefit st) (errors st).

(** The field names a validation error can be reported under. *)
Definition validatedFields : gset string :=
  {[ "jobTitle"; "yearsExperience"; "requiredSkills"; "benefits"; "jobDescription" ]}.

(** ** The selected-skills list *)

Definition addCustomSkill (st : FormState) : FormState :=
  let skill := trim (customSkill st) in
  if negb (isEmpty skill)
     && negb (arrayIncludes (selectedSkills st) skill)
     && (arrLen (selectedSkills st) <? VALIDATION_RULES.requiredSkills.maxItems)%Z
  then setCustomSkill "" (setSelectedSkills (selectedSkills st ++ [skill]) st)
  else st.

(** The updater that [toggleSkill] hands to [setSelectedSkills]. *)
Definition toggleSkillUpdate (skill : string) (prev : list string) : list string :=
  if arrayIncludes prev skill then
    List.filter (fun s => negb (String.eqb s skill)) prev
  else if (arrLen prev <? VALIDATION_RULES.requiredSkills.maxItems)%Z then
    prev ++ [skill]
  else prev.

Definition toggleSkill (skill : string) (st : FormState) : FormState :=
  setSelectedSkills (toggleSkillUpdate skill (selectedSkills st)) st.

(** [recommendedSkills], the memo on [formData.jobTitle]. *)
Definition recommendedSkills (st : FormState) : SkillSet :=
  getRecommendedSkills (jobTitle (formData st)).

(** The effect that auto-selects core skills when the job title changes. *)
Definition autoSelectEffect (st : FormState) : FormState :=
  if negb (isEmpty (jobTitle (formData st)))
     && (arrLen (selectedSkills st) =? 0)%Z
     && (0 <? arrLen (core (recommendedSkills st)))%Z
  then
    let autoSelect := firstn 4 (core (recommendedSkills st)) in
    setSelectedSkills autoSelect st
  else st.

(** The click handler of the "+ Add All Essential" button. *)
Definition addAllEssential (st : FormState) : FormState :=
  let sel := selectedSkills st in
  let rec := recommendedSkills st in
  let coreSkills :=
    List.filter
      (fun skill =>
         negb (arrayIncludes sel skill)
         && (arrLen sel
             + arrLen (List.filter (fun s => negb (arrayIncludes sel s)) (core rec))
             <=? VALIDATION_RULES.requiredSkills.maxItems)%Z)
      (core rec) in
  setSelectedSkills (sel ++ coreSkills) st.

(** The click handler of the "- Remove All Recommended" button. *)
Definition removeAllRecommended (st : FormState) : FormState :=
  let rec := recommendedSkills st in
  setSelectedSkills
    (List.filter
       (fun skill =>
          negb (arrayIncludes (core rec) skill)
          && negb (arrayIncludes (advanced rec) skill)
          && negb (arrayIncludes (tools rec) skill))
       (selectedSkills st))
    st.

(** Every way the component writes the selected-skills cell. *)
Inductive skillsStep : FormState -> FormState -> Prop :=
  | step_toggleSkill skill st : skillsStep st (toggleSkill skill st)
  | step_addCustomSkill st : skillsStep st (addCustomSkill st)
  | step_autoSelect st : skillsStep st (autoSelectEffect st)
  | step_addAllEssential st : skillsStep st (addAllEssential st)
  | step_removeAllRecommended st : skillsStep st (removeAllRecommended st)
  | step_otherCell st st' :
      selectedSkills st' = selectedSkills st -> skillsStep st st'.

Inductive reachable : FormState -> Prop :=
  | reach_initial : reachable initialState
  | reach_step st st' : reachable st -> skillsStep st st' -> reachable st'.

(** No duplicate entry and at most [maxItems] entries. *)
Definition skillsInvariant (l : list string) : Prop :=
  NoDup l /\ (arrLen l <= VALIDATION_RULES.requiredSkills.maxItems)%Z.


(** ** The rest of the component *)

(** [FORM_OPTIONS]: the values of the company-size and location options
    (their labels are only displayed). *)
Module FORM_OPTIONS.
Definition companySizes : list string := ["Small"; "Medium"; "Large"; "Enterprise"].
Definition locations : list string :=
  ["United States"; "Canada"; "United Kingdom"; "Germany"; "France"; "Denmark";
   "Sweden"; "Singapore"; "Israel"; "Austria"; "India"; "China"; "Other"].
End FORM_OPTIONS.

Definition getExperienceLevelDescription (level : string) : string :=
  if String.eqb level "Entry Level" then "0-2 years"
  else if String.eqb level "Mid Level" then "3-5 years"
  else if String.eqb level "Senior Level" then "6-10 years"
  else if String.eqb level "Executive" then "10+ years"
  else "".

(** [calculatedExperienceLevel], computed at every render. *)
Definition calculatedExperienceLevel (st : FormState) : ExperienceLevel :=
  getExperienceLevelFromYears (yearsExperience (formData st)).

Definition setFormData (fd : FormData) (st : FormState) : FormState :=
  mkFormState fd (selectedSkills st) (selectedBenefits st)
              (customSkill st) (customBenefit st) (errors st).

Definition setSelectedBenefits (l : list string) (st : FormState) : FormState :=
  mkFormState (formData st) (selectedSkills st) l
              (customSkill st) (customBenefit st) (errors st).

Definition setCustomBenefit (s : string) (st : FormState) : FormState :=
  mkFormState (formData st) (selectedSkills st) (selectedBenefits st)
              (customSkill st) s (errors st).

(** [handleSubmit]: the state after [validateForm], and the payload handed
    to [onPredict], if it is called. *)
Definition handleSubmit (st : FormState) : FormState * option PredictionInput :=
  let (st', valid) := validateForm st in
  if negb valid then (st', None)
  else
    let fd := formData st in
    (st',
     Some (mkInput (jobTitle fd) (yearsExperience fd) (calculatedExperienceLevel st)
                   (companyLocation fd) (companySize fd) (remoteRatio fd)
                   (selectedSkills st) (selectedBenefits st) (jobDescription fd))).

Definition addCustomBenefit (st : FormState) : FormState :=
  let benefit := trim (customBenefit st) in
  if negb (isEmpty benefit)
     && negb (arrayIncludes (selectedBenefits st) benefit)
     && (arrLen (selectedBenefits st) <? VALIDATION_RULES.benefits.maxItems)%Z
  then setCustomBenefit "" (setSelectedBenefits (selectedBenefits st ++ [benefit]) st)
  else st.

Definition toggleBenefitUpdate (benefit : string) (prev : list string) : list string :=
  if arrayIncludes prev benefit then
    List.filter (fun b => negb (String.eqb b benefit)) prev
  else if (arrLen prev <? VALIDATION_RULES.benefits.maxItems)%Z then
    prev ++ [benefit]
  else prev.

Definition toggleBenefit (benefit : string) (st : FormState) : FormState :=
  setSelectedBenefits (toggleBenefitUpdate benefit (selectedBenefits st)) st.

(** [renderError(field)]: the message shown, [None] for [null]. *)
Definition renderError (field : string) (st : FormState) : option string :=
  match errors st !! field with
  | Some message => if isEmpty message then None else Some message
  | None => None
  end.

(** [if (errors.field) setErrors({ ...errors, field: '' })] *)
Definition clearError (field : string) (st : FormState) : FormState :=
  match errors st !! field with
  | Some message =>
      if isEmpty message then st else setErrors (<[field := ""]> (errors st)) st
  | None => st
  end.

(** The [onChange] handlers of the job title, the years and the job
    description.  [parsed] is what [parseInt(e.target.value)] gave, [None]
    for [NaN]; [parseInt(..) || 0] turns [NaN] and [0] into [0]. *)
Definition onJobTitleChange (value : string) (st : FormState) : FormState :=
  let fd := formData st in
  clearError "jobTitle"
    (setFormData (mkFormData value (yearsExperience fd) (companyLocation fd)
                             (companySize fd) (remoteRatio fd) (requiredSkills fd)
                             (benefits fd) (jobDescription fd)) st).

(** Typing in the job-title input: the [onChange] handler and then, at
    the render that follows, the auto-select effect, which runs when
    [formData.jobTitle], its dependency, has changed. *)
Definition typeJobTitle (value : string) (st : FormState) : FormState :=
  let st' := onJobTitleChange value st in
  if String.eqb value (jobTitle (formData st)) then st' else autoSelectEffect st'.

Definition onYearsChange (parsed : option Z) (st : FormState) : FormState :=
  let fd := formData st in
  let years := match parsed with Some n => n | None => 0%Z end in
  clearError "yearsExperience"
    (setFormData (mkFormData (jobTitle fd) years (companyLocation fd)
                             (companySize fd) (remoteRatio fd) (requiredSkills fd)
                             (benefits fd) (jobDescription fd)) st).

Definition onJobDescriptionChange (value : string) (st : FormState) : FormState :=
  let fd := formData st in
  clearError "jobDescription"
    (setFormData (mkFormData (jobTitle fd) (yearsExperience fd) (companyLocation fd)
                             (companySize fd) (remoteRatio fd) (requiredSkills fd)
                             (benefits fd) value) st).

(** The [disabled] attribute of a skill button and of the Add button. *)
Definition skillButtonDisabled (skill : string) (st : FormState) : bool :=
  negb (arrayIncludes (selectedSkills st) skill)
  && (VALIDATION_RULES.requiredSkills.maxItems <=? arrLen (selectedSkills st))%Z.

Definition addSkillButtonDisabled (st : FormState) : bool :=
  isEmpty (trim (customSkill st))
  || (VALIDATION_RULES.requiredSkills.maxItems <=? arrLen (selectedSkills st))%Z.

(** Every event of the form: the handlers above, the edits of the other
    fields and of the two custom inputs, the effect and the submission. *)
Inductive formStep : FormState -> FormState -> Prop :=
  | form_jobTitle value st : formStep st (onJobTitleChange value st)
  | form_years parsed st : formStep st (onYearsChange parsed st)
  | form_description value st : formStep st (onJobDescriptionChange value st)
  | form_company location size ratio st :
      formStep st (withCompany location size ratio st)
  | form_customSkill value st : formStep st (setCustomSkill value st)
  | form_customBenefit value st : formStep st (setCustomBenefit value st)
  | form_toggleSkill skill st : formStep st (toggleSkill skill st)
  | form_addCustomSkill st : formStep st (addCustomSkill st)
  | form_autoSelect st : formStep st (autoSelectEffect st)
  | form_addAllEssential st : formStep st (addAllEssential st)
  | form_removeAllRecommended st : formStep st (removeAllRecommended st)
  | form_toggleBenefit benefit st : formStep st (toggleBenefit benefit st)
  | form_addCustomBenefit st : formStep st (addCustomBenefit st)
  | form_submit st : formStep st (fst (handleSubmit st)).

Inductive formReachable : FormState -> Prop :=
  | form_initial : formReachable initialState
  | form_next st st' : formReachable st -> formStep st st' -> formReachable st'.

(** No duplicate entry and at most [maxItems] entries. *)
Definition benefitsInvariant (l : list string) : Prop :=
  NoDup l /\ (arrLen l <= VALIDATION_RULES.benefits.maxItems)%Z.

(** The order of the tiers. *)
Definition levelRank (l : ExperienceLevel) : Z :=
  match l with
  | EntryLevel => 0
  | MidLevel => 1
  | SeniorLevel => 2
  | Executive => 3
  end.

End PredictionForm.

(* ===================================================================== *)
(** * components/results/PredictionResults.tsx *)
(* ===================================================================== *)

Module PredictionResults.
Import JS Types.
Local Open Scope float_scope.

Section Presenter.

Variable result : PredictionResult.

(** The guarded reads at the top of the component. *)
Definition predictedSalary' : float := orNumber (predictedSalary result) 0.

Definition confidenceInterval' : ConfidenceInterval :=
  match confidenceInterval result with
  | Some ci => ci
  | None => mkInterval (Some 0) (Some 0)
  end.

(** [result.metadata || {}] followed by [metadata.model_accuracy]. *)
Definition model_accuracy' : option float :=
  match metadata result with
  | Some m => model_accuracy m
  | None => None
  end.

(** [const modelAccuracy = metadata.model_accuracy || 0.7336], the
    accuracy [getModelConfidence] uses. *)
Definition modelAccuracy : float := orNumber model_accuracy' 0.7336.

Definition getModelConfidence : float := Math_round (modelAccuracy * 100).

(** The object [getPredictionPrecision] returns; [margin] is absent from
    the default. *)
Record Precision : Type := mkPrecision {
  percentage : float;
  range : float;
  margin : option float
}.

Definition getPredictionPrecision : Precision :=
  match upper confidenceInterval', lower confidenceInterval' with
  | Some u, Some l =>
      if negb (truthy u) || negb (truthy l) || negb (truthy predictedSalary')
         || (predictedSalary' =? 0)
      then mkPrecision 85 (predictedSalary' * 0.3) None
      else
        let range := u - l in
        let relativeUncertainty := range / predictedSalary' in
        let precision :=
          Math_max 60 (Math_min 95 (Math_round ((1 - relativeUncertainty) * 100))) in
        mkPrecision precision range (Some (Math_round (range / 2)))
  | _, _ => mkPrecision 85 (predictedSalary' * 0.3) None
  end.

End Presenter.

(** *** The metrics as the specification writes them *)

(** [clamp(x, lo, hi)] *)
Definition clamp (x lo hi : float) : float :=
  if x <? lo then lo else if hi <? x then hi else x.

Definition specMargin (lo up : float) : float := Math_round ((up - lo) / 2).

Definition specPrecision (lo up salary : float) : float :=
  clamp (Math_round ((1 - (up - lo) / salary) * 100)) 60 95.

(** The interval or the predicted salary is absent or zero. *)
Definition intervalOrSalaryAbsentOrZero (result : PredictionResult) : Prop :=
  absentOrZero (predictedSalary result) = true
  \/ match confidenceInterval result with
     | Some ci => absentOrZero (lower ci) = true \/ absentOrZero (upper ci) = true
     | None => True
     end.

(** The example of section 8. *)
Definition exampleResult : PredictionResult :=
  mkResult (Some 125000) (Some (mkInterval (Some 110000) (Some 140000)))
           None None None None.

(** A result whose interval starts at zero. *)
Definition fromZeroResult : PredictionResult :=
  mkResult (Some 40000) (Some (mkInterval (Some 0) (Some 80000)))
           None None None None.


(** [predictionPrecision.margin ?? 0] *)
Definition displayedMargin (result : PredictionResult) : float :=
  match margin (getPredictionPrecision result) with
  | Some m => m
  | None => 0
  end.

(** The line under the predicted salary: the interval with the margin of
    error, or an estimated confidence. *)
Inductive ConfidenceLine : Type :=
  | RangeLine (lo up marginOfError : float)
  | EstimatedLine (confidence : float).

Definition confidenceLine (result : PredictionResult) : ConfidenceLine :=
  match lower (confidenceInterval' result), upper (confidenceInterval' result) with
  | Some l, Some u =>
      if truthy l && truthy u then RangeLine l u (displayedMargin result)
      else EstimatedLine (Math_round (predictedSalary' result * 0.2))
  | _, _ => EstimatedLine (Math_round (predictedSalary' result * 0.2))
  end.

End PredictionResults.

(* ===================================================================== *)
(** * app/api/predict/route.ts *)
(* ===================================================================== *)

Module PredictRoute.
Import JS.
Local Open Scope float_scope.

(** What [NextResponse.json(body, { status })] builds; [None] as body is
    [undefined], and the status is 200 unless given. *)
Record NextResponse : Type := mkNextResponse {
  body : option JSON;
  responseStatus : Z
}.

Definition NextResponse_json (b : option JSON) : NextResponse :=
  mkNextResponse b 200.

(** The statuses that allow no body. *)
Definition nullBodyStatus (s : Z) : bool :=
  ((s =? 101) || (s =? 103) || (s =? 204) || (s =? 205) || (s =? 304))%Z.

(** [NextResponse.json(body, { status })] throws, as the [Response] under
    it does: a TypeError for a body that is [undefined], which has no JSON
    text, a RangeError for a status outside 200-599 and a TypeError for a
    status that allows no body. *)
Definition jsonThrows (b : option JSON) (s : Z) : bool :=
  match b with
  | None => true
  | Some _ => negb ((200 <=? s)%Z && (s <=? 599)%Z) || nullBodyStatus s
  end.

(** The fallback of the [catch] block. *)
Definition mockResult : JSON :=
  JObject
    [ ("predictedSalary", JNumber 115000);
      ("confidenceInterval",
        JObject [ ("lower", JNumber 92481); ("upper", JNumber 137519) ]);
      ("similarJobs", JNumber 347);
      ("marketPosition", JString "Average");
      ("factors",
        JArray
          [ JObject
              [ ("name", JString "Service Unavailable");
                ("impact", JNumber 0);
                ("description",
                  JString "Using fallback prediction - Flask backend not available") ] ]) ].

(** What [await request.json()] does. *)
Inductive RequestBody : Type :=
  | BodyRejects (message : string)
  | BodyResolves (input : JSON).

(** [POST].  [fetch] stands for the Flask backend: the outcome of the one
    call [fetch(`${FLASK_API_URL}/api/predict`, ..)] on the input.  Any
    exception inside [try] ends in the [catch] block. *)
Definition POST (request : RequestBody) (fetch : JSON -> FetchResult)
  : NextResponse :=
  match request with
  | BodyRejects _ => NextResponse_json (Some mockResult)
  | BodyResolves input =>
      match fetch input with
      | FetchRejects _ => NextResponse_json (Some mockResult)
      | FetchResolves response =>
          if negb (ok response) then
            match bodyJson response with
            | inl _ => NextResponse_json (Some mockResult)
            | inr JNull => NextResponse_json (Some mockResult)
            | inr error =>
                let answer :=
                  Some (JObject
                     [ ("error",
                         orValue (prop "error" error) (JString "Prediction failed"));
                       ("message",
                         orValue (prop "message" error)
                                 (JString "Unknown error occurred")) ]) in
                if jsonThrows answer (status response)
                then NextResponse_json (Some mockResult)
                else mkNextResponse answer (status response)
            end
          else
            match bodyJson response with
            | inl _ => NextResponse_json (Some mockResult)
            | inr JNull => NextResponse_json (Some mockResult)
            | inr result =>
                if jsonThrows (prop "data" result) 200
                then NextResponse_json (Some mockResult)
                else NextResponse_json (prop "data" result)
            end
      end
  end.


(** [GET]: [fetched] is the outcome of the call to [/api/model/info].  A
    property whose value is [undefined] is left out of the JSON body. *)
Definition GET (fetched : FetchResult) : NextResponse :=
  let fallback :=
    NextResponse_json
      (Some (JObject
        [ ("message", JString "Frontend API running (Flask backend unavailable)");
          ("backend", JString "Mock data fallback") ])) in
  match fetched with
  | FetchRejects _ => fallback
  | FetchResolves response =>
      match bodyJson response with
      | inl _ => fallback
      | inr JNull => fallback
      | inr result =>
          NextResponse_json
            (Some (JObject
              ([ ("message", JString "AI Salary Prediction API is running");
                 ("backend", JString "Flask + Random Forest") ]
               ++ match prop "data" result with
                  | Some info => [ ("model_info", info) ]
                  | None => []
                  end)))
      end
  end.

End PredictRoute.

(* ===================================================================== *)
(** * app/predict/page.tsx *)
(* ===================================================================== *)

Module PredictPage.
Import JS.

(** The [useState] cells of [PredictPage]. *)
Record PageState : Type := mkPageState {
  prediction : option JSON;
  isLoading : bool;
  error : option string
}.

(** How the [try] block of [handlePrediction] ends: by a [throw], or by
    [setPrediction]. *)
Inductive Completion : Type :=
  | Throws (message : string)
  | SetsPrediction (payload : JSON).

Section Handler.

Variable numberToString : float -> string.

(** The statements after [const result = await response.json()]. *)
Definition interpretResult (result : JSON) : Completion :=
  match result with
  | JNull => Throws (nullPropertyMessage "status")
  | _ =>
      if isString "success" (prop "status" result)
         && toBoolean (prop "data" result)
      then
        match prop "data" result with
        | Some data => SetsPrediction data
        | None => SetsPrediction result
        end
      else if isString "error" (prop "status" result) then
        Throws (toString numberToString
                  (orValue (prop "message" result) (JString "Prediction failed")))
      else SetsPrediction result
  end.

(** The [try] block. *)
Definition tryBlock (fetched : FetchResult) : Completion :=
  match fetched with
  | FetchRejects message => Throws message
  | FetchResolves response =>
      if negb (ok response) then
        Throws ("Backend error: " +:+ pretty (status response)
                +:+ " " +:+ statusText response)
      else if match contentType response with
              | None => true
              | Some ct => isEmpty ct || negb (includes ct "application/json")
              end
      then Throws "Backend returned non-JSON response"
      else
        match bodyJson response with
        | inl syntaxError => Throws syntaxError
        | inr result => interpretResult result
        end
  end.

(** The [catch] block: the text left in the [error] cell. *)
Definition catchBlock (message : string) : string :=
  if includes message "fetch" then
    "Cannot connect to prediction service. Please check if the backend is running."
  else if includes message "CORS" then
    "CORS error. Please check backend CORS configuration."
  else "Prediction failed: " +:+ message.

(** [handlePrediction]: the cells once the promise has settled;
    [setIsLoading(true)] and [setError(null)] come first, [finally] last. *)
Definition handlePrediction (st : PageState) (fetched : FetchResult) : PageState :=
  match tryBlock fetched with
  | SetsPrediction payload => mkPageState (Some payload) false None
  | Throws message => mkPageState (prediction st) false (Some (catchBlock message))
  end.

End Handler.

(** A number format for the examples, none of which formats a number. *)
Definition noNumberFormat (x : float) : string := "".

(** A 500 answer of the service whose body carries a message. *)
Definition modelNotLoaded : Response :=
  mkResponse 500 "INTERNAL SERVER ERROR" (Some "application/json")
    (inr (JObject [ ("status", JString "error");
                    ("message", JString "Model not loaded") ])).


(** What the results column shows. *)
Inductive Panel : Type :=
  | Placeholder
  | LoadingPanel
  | ErrorPanel (text : string)
  | ResultsPanel (result : JSON)
  | NumberText (x : float).

(** [!!error] on the error cell. *)
Definition hasError (st : PageState) : bool :=
  match error st with
  | Some text => negb (isEmpty text)
  | None => false
  end.

(** [{prediction && (<PredictionResults result={prediction} />)}]: a
    falsy number is rendered as its text, the other falsy values as
    nothing. *)
Definition predictionBlock (p : option JSON) : list Panel :=
  match p with
  | Some (JNumber x) => if truthy x then [ResultsPanel (JNumber x)] else [NumberText x]
  | Some v => if toBoolean (Some v) then [ResultsPanel v] else []
  | None => []
  end.

(** The four conditional blocks of the results column, in order. *)
Definition panels (st : PageState) : list Panel :=
  (if negb (toBoolean (prediction st)) && negb (isLoading st) && negb (hasError st)
   then [Placeholder] else [])
  ++ (if isLoading st then [LoadingPanel] else [])
  ++ (match error st with
      | Some text => if isEmpty text then [] else [ErrorPanel text]
      | None => []
      end)
  ++ predictionBlock (prediction st).

Definition cannotConnect : string :=
  "Cannot connect to prediction service. Please check if the backend is running.".

Definition corsError : string :=
  "CORS error. Please check backend CORS configuration.".

End PredictPage.

(* ===================================================================== *)
(** * app/analytics/page.tsx *)
(* ===================================================================== *)

Module Analytics.

(** [data.metadata] of the analytics response. *)
Record AnalyticsMetadata : Type := mkAnalyticsMetadata {
  totalRecords : Z;
  filteredRecords : Z
}.

(** The analytics response; the aggregate series it carries are only
    handed to the charts. *)
Record AnalyticsData : Type := mkAnalyticsData {
  metadata : AnalyticsMetadata
}.

Inductive EmptyDataType : Type :=
  | no_data
  | insufficient_data.

(** What [OverviewTab] returns: [null], the [EmptyDataState] element with
    its type and message, or the metric cards and charts (whose cards get
    [isValid]). *)
Inductive OverviewView : Type :=
  | RendersNothing
  | EmptyDataState (type : EmptyDataType) (message : string)
  | ChartSet (isValid : bool).

Section Dashboard.

(** The [data] cell: [null] until a response arrived. *)
Variable data : option AnalyticsData.

Definition hasMinimumData : bool :=
  match data with
  | None => false
  | Some d => (10 <=? filteredRecords (metadata d))%Z
  end.

Definition hasNoData : bool :=
  match data with
  | None => true
  | Some d => (filteredRecords (metadata d) =? 0)%Z
  end.

Definition hasInsufficientData : bool :=
  match data with
  | None => false
  | Some d =>
      (0 <? filteredRecords (metadata d))%Z && (filteredRecords (metadata d) <? 10)%Z
  end.

Definition OverviewTab : OverviewView :=
  match data with
  | None => RendersNothing
  | Some d =>
      if hasNoData then
        EmptyDataState no_data
          "Your current filter combination doesn't match any records in our dataset."
      else if hasInsufficientData then
        EmptyDataState insufficient_data
          ("Only " +:+ pretty (filteredRecords (metadata d))
           +:+ " records match your filters. Analytics require at least 10 records for meaningful insights.")
      else ChartSet hasMinimumData
  end.

End Dashboard.

(** The three states of the data-sufficiency classification. *)
Inductive Sufficiency : Type :=
  | NoData
  | InsufficientData
  | SufficientData.

(** The classification as the specification states it. *)
Definition classifySpec (filtered : Z) : Sufficiency :=
  if (filtered =? 0)%Z then NoData
  else if (filtered <? 10)%Z then InsufficientData
  else SufficientData.


(** ** Filters *)

(** The [filters] cell: an object, as the list of its entries in order. *)
Definition initialFilters : list (string * string) :=
  [ ("location", "All"); ("experienceLevel", "All");
    ("companySize", "All"); ("salaryRange", "All") ].

Fixpoint getEntry (k : string) (obj : list (string * string)) : option string :=
  match obj with
  | [] => None
  | (k', v') :: obj' => if String.eqb k' k then Some v' else getEntry k obj'
  end.

(** Writing a property the object has: the entry keeps its place. *)
Fixpoint replaceEntry (k v : string) (obj : list (string * string))
  : list (string * string) :=
  match obj with
  | [] => []
  | (k', v') :: obj' =>
      if String.eqb k' k then (k', v) :: obj' else (k', v') :: replaceEntry k v obj'
  end.

(** A new property whose key is the array index [n]: the array indices
    come first, in ascending order. *)
Fixpoint insertIndex (n : N) (k v : string) (obj : list (string * string))
  : list (string * string) :=
  match obj with
  | [] => [(k, v)]
  | (k', v') :: obj' =>
      match JS.arrayIndex k' with
      | Some m =>
          if (m <? n)%N then (k', v') :: insertIndex n k v obj' else (k, v) :: obj
      | None => (k, v) :: obj
      end
  end.

(** [{ ...prev, [filterName]: value }], in the order [Object.entries] and
    [Object.values] list it: an entry the object has keeps its place; a
    new key goes among the array indices if it is one, and last if not. *)
Definition setEntry (k v : string) (obj : list (string * string))
  : list (string * string) :=
  match getEntry k obj with
  | Some _ => replaceEntry k v obj
  | None =>
      match JS.arrayIndex k with
      | Some n => insertIndex n k v obj
      | None => obj ++ [(k, v)]
      end
  end.

Definition handleFilterChange (filterName value : string)
           (prev : list (string * string)) : list (string * string) :=
  setEntry filterName value prev.

Definition resetFilters (prev : list (string * string)) : list (string * string) :=
  initialFilters.

Definition isActive (value : string) : bool := negb (String.eqb value "All").

(** [Object.values(filters).filter(value => value !== 'All').length] *)
Definition activeFiltersCount (filters : list (string * string)) : nat :=
  List.length (List.filter isActive (List.map snd filters)).

(** The [URLSearchParams] that [fetchAnalyticsData] fills: the pairs it
    appends, in order. *)
Definition queryParams (filters : list (string * string)) : list (string * string) :=
  List.filter (fun kv => isActive (snd kv)) filters.

(** The [Reset All Filters] button of [EmptyDataState] is rendered, and
    the [Reset Filters] button of [FilterSection] is disabled. *)
Definition showsResetAll (filters : list (string * string)) : bool :=
  (0 <? activeFiltersCount filters)%nat.

Definition resetDisabled (filters : list (string * string)) : bool :=
  (activeFiltersCount filters =? 0)%nat.

(** The filter names the selects use. *)
Definition filterNames : list string :=
  ["location"; "experienceLevel"; "companySize"; "salaryRange"].

(** The filters the dashboard can hold: the initial ones, changed through
    the four selects and the remove buttons of the active filters, which
    all name one of [filterNames], or reset. *)
Inductive filtersReachable : list (string * string) -> Prop :=
  | filters_initial : filtersReachable initialFilters
  | filters_change filterName value filters :
      filtersReachable filters -> In filterName filterNames ->
      filtersReachable (handleFilterChange filterName value filters)
  | filters_reset filters :
      filtersReachable filters -> filtersReachable (resetFilters filters).

(** ** Tabs *)

Inductive Tab : Type :=
  | overviewTab
  | geographicTab
  | skillsTab
  | experienceTab
  | companiesTab
  | trendsTab.

(** What a tab other than the overview returns: [null], the
    [EmptyDataState] element, or its charts. *)
Inductive TabView : Type :=
  | TabNothing
  | TabEmpty (type : EmptyDataType) (message : string)
  | TabCharts (tab : Tab).

Section Tabs.

Variable data : option AnalyticsData.

(** The guard every tab but the overview starts with, and its charts. *)
Definition guardedTab (tab : Tab) (noDataMessage insufficientMessage : string)
  : TabView :=
  match data with
  | None => TabNothing
  | Some _ =>
      if hasNoData data || hasInsufficientData data then
        TabEmpty (if hasNoData data then no_data else insufficient_data)
                 (if hasNoData data then noDataMessage else insufficientMessage)
      else TabCharts tab
  end.

Definition GeographicTab : TabView :=
  guardedTab geographicTab
    "No geographic data matches your current filters."
    "Insufficient data for meaningful geographic analysis.".

Definition SkillsTab : TabView :=
  guardedTab skillsTab
    "No skills data matches your current filters."
    "Insufficient data for meaningful skills analysis.".

Definition ExperienceTab : TabView :=
  guardedTab experienceTab
    "No experience data matches your current filters."
    "Insufficient data for meaningful experience analysis.".

Definition CompaniesTab : TabView :=
  guardedTab companiesTab
    "No company data matches your current filters."
    "Insufficient data for meaningful company analysis.".

Definition TrendsTab : TabView :=
  guardedTab trendsTab
    "No trend data matches your current filters."
    "Insufficient data for meaningful trend analysis.".

(** [renderTabContent]: the [switch] on the [activeTab] cell. *)
Definition renderTabContent (activeTab : string) : OverviewView + TabView :=
  if String.eqb activeTab "overview" then inl (OverviewTab data)
  else if String.eqb activeTab "geographic" then inr GeographicTab
  else if String.eqb activeTab "skills" then inr SkillsTab
  else if String.eqb activeTab "experience" then inr ExperienceTab
  else if String.eqb activeTab "companies" then inr CompaniesTab
  else if String.eqb activeTab "trends" then inr TrendsTab
  else inl (OverviewTab data).

End Tabs.

(** The state a tab's content shows: an empty state of some type, charts,
    or nothing. *)
Inductive Shown : Type :=
  | ShowsNothing
  | ShowsEmpty (type : EmptyDataType)
  | ShowsCharts.

Definition shown (content : OverviewView + TabView) : Shown :=
  match content with
  | inl RendersNothing => ShowsNothing
  | inl (EmptyDataState type _) => ShowsEmpty type
  | inl (ChartSet _) => ShowsCharts
  | inr TabNothing => ShowsNothing
  | inr (TabEmpty type _) => ShowsEmpty type
  | inr (TabCharts _) => ShowsCharts
  end.

End Analytics.

(* ===================================================================== *)
(** * Properties *)
(* ===================================================================== *)

(** ** Strings *)

Module StringFacts.
Import JS.

Lemma prefix_true_iff (sub s : string) :
  String.prefix sub s = true <-> exists b, s = sub +:+ b.
Proof.
  revert s; induction sub as [|c sub IH]; intros s.
  - destruct s; simpl; (split; [intros _; eexists; reflexivity | reflexivity]).
  - destruct s as [|c' s]; simpl.
    + split; [discriminate | intros [b Hb]; discriminate].
    + destruct (Ascii.ascii_dec c c') as [->|Hne].
      * rewrite IH. split; intros [b Hb]; exists b; simpl in *; [now rewrite Hb | now injection Hb].
      * split; [discriminate | intros [b Hb]; simpl in Hb; injection Hb as Hc _; now subst].
Qed.

Lemma includes_nil (sub : string) : includes "" sub = String.prefix sub "".
Proof. unfold includes. apply orb_false_r. Qed.

Lemma includes_cons (c : ascii) (s sub : string) :
  includes (String c s) sub = String.prefix sub (String c s) || includes s sub.
Proof. reflexivity. Qed.

(** [includes] finds exactly the occurrences of [sub] in [s]. *)
Lemma includes_true_iff (s sub : string) :
  includes s sub = true <-> exists a b, s = a +:+ sub +:+ b.
Proof.
  induction s as [|c s IH].
  - rewrite includes_nil, prefix_true_iff. split.
    + intros [b Hb]. now exists "", b.
    + intros (a & b & Hab). destruct a; simpl in Hab; [now exists b | discriminate].
  - rewrite includes_cons, orb_true_iff, prefix_true_iff, IH. split.
    + intros [[b Hb] | (a & b & Hab)].
      * now exists "", b.
      * exists (String c a), b. simpl. now rewrite Hab.
    + intros (a & b & Hab). destruct a as [|c' a]; simpl in Hab.
      * left. now exists b.
      * right. exists a, b. now injection Hab.
Qed.

Lemma includes_empty_title (sub : string) :
  isEmpty sub = false -> includes "" sub = false.
Proof. destruct sub; [discriminate | reflexivity]. Qed.

Lemma isEmpty_true (s : string) : isEmpty s = true <-> s = "".
Proof. destruct s; simpl; split; congruence. Qed.

Lemma toLowerCase_empty (s : string) : isEmpty (toLowerCase s) = isEmpty s.
Proof. now destruct s. Qed.

Lemma toLowerCase_length (s : string) :
  String.length (toLowerCase s) = String.length s.
Proof. induction s; simpl; congruence. Qed.

Lemma arrayIncludes_true_iff (l : list string) (x : string) :
  arrayIncludes l x = true <-> In x l.
Proof.
  unfold arrayIncludes. rewrite existsb_exists. split.
  - intros (y & Hy & Heq). apply String.eqb_eq in Heq. now subst.
  - intros H. exists x. split; [assumption | apply String.eqb_refl].
Qed.

Lemma arrayIncludes_false_iff (l : list string) (x : string) :
  arrayIncludes l x = false <-> ~ In x l.
Proof.
  rewrite <- arrayIncludes_true_iff. destruct (arrayIncludes l x); split; congruence.
Qed.

End StringFacts.

(** ** The input normaliser *)

Module NormalizerFacts.
Import JS Types PredictionForm StringFacts.

(** C1: for every yearsExperience in [0,50], getExperienceLevelFromYears
    returns the tier of the closed integer interval the value lies in:
    [0,2] Entry Level, [3,5] Mid Level, [6,10] Senior Level, [11,50]
    Executive; so it does at the boundary values 2, 3, 5, 6, 10 and 11. *)
Theorem experience_level_by_interval (years : Z) :
  (0 <= years <= 50)%Z ->
  ((0 <= years <= 2)%Z -> getExperienceLevelFromYears years = EntryLevel)
  /\ ((3 <= years <= 5)%Z -> getExperienceLevelFromYears years = MidLevel)
  /\ ((6 <= years <= 10)%Z -> getExperienceLevelFromYears years = SeniorLevel)
  /\ ((11 <= years <= 50)%Z -> getExperienceLevelFromYears years = Executive)
  /\ getExperienceLevelFromYears 2 = EntryLevel
  /\ getExperienceLevelFromYears 3 = MidLevel
  /\ getExperienceLevelFromYears 5 = MidLevel
  /\ getExperienceLevelFromYears 6 = SeniorLevel
  /\ getExperienceLevelFromYears 10 = SeniorLevel
  /\ getExperienceLevelFromYears 11 = Executive.
Proof.
  intros Hrange. unfold getExperienceLevelFromYears.
  repeat split; try reflexivity; intros H;
    repeat (match goal with
            | |- context [Z.leb ?a ?b] => destruct (Z.leb_spec a b)
            end); try reflexivity; lia.
Qed.

Lemma experience_level_by_interval_witness :
  getExperienceLevelFromYears 7 = SeniorLevel.
Proof.
  destruct (experience_level_by_interval 7 ltac:(lia)) as (_ & _ & H & _).
  apply H; lia.
Defined.

(** The four tiers are pairwise distinct texts, so a tier is one text. *)
Lemma experienceLevelText_inj (a b : ExperienceLevel) :
  experienceLevelText a = experienceLevelText b -> a = b.
Proof. destruct a, b; simpl; intros H; try reflexivity; discriminate. Qed.

(** *** First match wins *)

Lemma exactMatch_first (m : list (string * SkillSet)) (t : string)
      (i : nat) (r : string) (skills : SkillSet) :
  m !! i = Some (r, skills) ->
  includes t r = true ->
  (forall j r' s', j < i -> m !! j = Some (r', s') -> includes t r' = false) ->
  exactMatch m t = Some skills.
Proof.
  revert i; induction m as [|[k v] m IH]; intros i Hi Hin Hbefore.
  - discriminate.
  - destruct i as [|i]; simpl in *.
    + injection Hi as -> ->. now rewrite Hin.
    + rewrite (Hbefore 0 k v ltac:(lia) eq_refl).
      apply (IH i Hi Hin). intros j r' s' Hj Hl.
      apply (Hbefore (S j) r' s'); [lia | exact Hl].
Qed.

Lemma exactMatch_none (m : list (string * SkillSet)) (t : string) :
  (forall r s, In (r, s) m -> includes t r = false) ->
  exactMatch m t = None.
Proof.
  induction m as [|[k v] m IH]; intros H; simpl; [reflexivity|].
  rewrite (H k v (or_introl eq_refl)). apply IH.
  intros r s Hrs. apply (H r s). now right.
Qed.

Lemma firstMatch_none (rules : list Rule) (t : string) :
  Forall (fun rule : Rule => fst rule t = false) rules ->
  firstMatch rules t = noSkills.
Proof.
  induction 1 as [|[p r] rules Hp _ IH]; simpl in *; [reflexivity|].
  now rewrite Hp.
Qed.

(** The rule list of the taxonomy is the loop over its entries. *)
Lemma firstMatch_exactRules (m : list (string * SkillSet)) (rest : list Rule)
      (t : string) :
  firstMatch
    (List.map (fun kv : string * SkillSet =>
                 ((fun t => includes t (fst kv)), snd kv)) m ++ rest) t
  = match exactMatch m t with
    | Some skills => skills
    | None => firstMatch rest t
    end.
Proof.
  induction m as [|[k v] m IH]; simpl; [reflexivity|].
  destruct (includes t k); [reflexivity | exact IH].
Qed.

(** The cascade list is the [if .. else if ..] chain. *)
Lemma firstMatch_cascadeRules (t : string) :
  firstMatch cascadeRules t = partialMatch t.
Proof. reflexivity. Qed.

Lemma recommended_refines (jobTitle : string) :
  getRecommendedSkills jobTitle = recommendedSkillsSpec jobTitle.
Proof.
  unfold getRecommendedSkills, recommendedSkillsSpec, exactRules.
  rewrite firstMatch_exactRules.
  destruct jobTitle as [|c s]; [reflexivity|].
  cbn [isEmpty]. destruct (exactMatch _ _); [reflexivity|].
  symmetry. apply firstMatch_cascadeRules.
Qed.

(** Every key of the taxonomy is a non-empty text. *)
Lemma role_keys_nonempty :
  Forall (fun kv : string * SkillSet => isEmpty (fst kv) = false) ROLE_SKILL_MAPPING.
Proof. repeat constructor. Qed.

Lemma empty_title_no_exact_match : exactMatch ROLE_SKILL_MAPPING "" = None.
Proof. reflexivity. Qed.

(** C3: for every job title, getRecommendedSkills is the first match of
    the ordered rules on the lower-cased title: the skill set of the first
    taxonomy key (in the taxonomy's order) that is a substring; if no key
    is, the first match of the fixed cascade ("scientist", "engineer" with
    "ml", "engineer" with "data" or "etl", ..., bare "engineer"); and
    three empty sequences if nothing matches.  For "Senior ML Engineer"
    the core skills are Python, Machine Learning, TensorFlow, PyTorch,
    Docker. *)
Theorem recommended_skills_first_match (jobTitle : string) :
  getRecommendedSkills jobTitle = recommendedSkillsSpec jobTitle
  /\ (forall i r skills,
        ROLE_SKILL_MAPPING !! i = Some (r, skills) ->
        includes (toLowerCase jobTitle) r = true ->
        (forall j r' s', j < i -> ROLE_SKILL_MAPPING !! j = Some (r', s') ->
                         includes (toLowerCase jobTitle) r' = false) ->
        getRecommendedSkills jobTitle = skills)
  /\ ((forall r s, In (r, s) ROLE_SKILL_MAPPING ->
                   includes (toLowerCase jobTitle) r = false) ->
      getRecommendedSkills jobTitle = firstMatch cascadeRules (toLowerCase jobTitle))
  /\ (Forall (fun rule : Rule => fst rule (toLowerCase jobTitle) = false)
             (exactRules ++ cascadeRules) ->
      getRecommendedSkills jobTitle = noSkills)
  /\ core (getRecommendedSkills "Senior ML Engineer")
     = ["Python"; "Machine Learning"; "TensorFlow"; "PyTorch"; "Docker"].
Proof.
  split; [apply recommended_refines|].
  split; [|split; [|split; [|reflexivity]]].
  - intros i r skills Hi Hin Hbefore.
    unfold getRecommendedSkills.
    destruct (isEmpty jobTitle) eqn:He.
    + apply isEmpty_true in He. subst jobTitle.
      assert (isEmpty r = false) as Hk.
      { pose proof role_keys_nonempty as Hk. rewrite Forall_forall in Hk.
        apply (Hk (r, skills)). eapply list_elem_of_lookup_2. exact Hi. }
      change (toLowerCase "") with "" in Hin.
      rewrite (includes_empty_title r Hk) in Hin. discriminate.
    + now rewrite (exactMatch_first _ _ i r skills Hi Hin Hbefore).
  - intros Hnone. unfold getRecommendedSkills.
    destruct (isEmpty jobTitle) eqn:He.
    + apply isEmpty_true in He. now subst jobTitle.
    + now rewrite (exactMatch_none _ _ Hnone).
  - intros Hnone. rewrite recommended_refines.
    apply firstMatch_none, Hnone.
Qed.

Lemma recommended_skills_first_match_witness :
  getRecommendedSkills "Lead Data Engineer (ETL)" = role "data engineer".
Proof.
  destruct (recommended_skills_first_match "Lead Data Engineer (ETL)")
    as (_ & Hexact & _).
  apply (Hexact 2 "data engineer").
  - reflexivity.
  - reflexivity.
  - intros j r' s' Hj Hl.
    destruct j as [|[|j]]; [| |lia]; injection Hl as <- _; reflexivity.
Defined.

End NormalizerFacts.

(** ** The form validator *)

Module ValidatorFacts.
Import JS Types PredictionForm StringFacts.

Local Ltac split_ifs :=
  repeat match goal with
         | |- context [if ?c then _ else _] => destruct c
         end.

Local Ltac unfold_rules :=
  cbv [VALIDATION_RULES.jobTitle.minLength VALIDATION_RULES.jobTitle.maxLength
       VALIDATION_RULES.yearsExperience.min VALIDATION_RULES.yearsExperience.max
       VALIDATION_RULES.requiredSkills.maxItems VALIDATION_RULES.benefits.maxItems
       VALIDATION_RULES.jobDescription.maxLength] in *.

Local Ltac solve_lookup :=
  unfold newErrors, jobTitleError, yearsError, skillsError, benefitsError,
    descriptionError;
  unfold_rules; split_ifs; simplify_map_eq; reflexivity.

Lemma newErrors_jobTitle (st : FormState) :
  newErrors st !! "jobTitle" = jobTitleError (jobTitle (formData st)).
Proof. solve_lookup. Qed.

Lemma newErrors_yearsExperience (st : FormState) :
  newErrors st !! "yearsExperience" = yearsError (yearsExperience (formData st)).
Proof. solve_lookup. Qed.

Lemma newErrors_requiredSkills (st : FormState) :
  newErrors st !! "requiredSkills" = skillsError (selectedSkills st).
Proof. solve_lookup. Qed.

Lemma newErrors_benefits (st : FormState) :
  newErrors st !! "benefits" = benefitsError (selectedBenefits st).
Proof. solve_lookup. Qed.

(** The guard [formData.jobDescription && ..] adds nothing to the length
    test: an empty description has length 0. *)
Lemma description_guard (text : string) :
  negb (isEmpty text) && (10000 <? strLen text)%Z = (10000 <? strLen text)%Z.
Proof. destruct text; reflexivity. Qed.

Lemma newErrors_jobDescription (st : FormState) :
  newErrors st !! "jobDescription" = descriptionError (jobDescription (formData st)).
Proof.
  unfold newErrors. unfold_rules. rewrite description_guard. solve_lookup.
Qed.

Lemma newErrors_other (st : FormState) (k : string) :
  k ∉ validatedFields -> newErrors st !! k = None.
Proof.
  unfold validatedFields. intros Hk.
  assert (k ≠ "jobTitle" /\ k ≠ "yearsExperience" /\ k ≠ "requiredSkills"
          /\ k ≠ "benefits" /\ k ≠ "jobDescription") as (H1 & H2 & H3 & H4 & H5)
    by set_solver.
  unfold newErrors. split_ifs; simplify_map_eq; reflexivity.
Qed.

(** The mapping has no key exactly when no field has a message. *)
Lemma newErrors_empty_iff (st : FormState) :
  newErrors st = ∅ <->
  jobTitleError (jobTitle (formData st)) = None
  /\ yearsError (yearsExperience (formData st)) = None
  /\ skillsError (selectedSkills st) = None
  /\ benefitsError (selectedBenefits st) = None
  /\ descriptionError (jobDescription (formData st)) = None.
Proof.
  rewrite <- newErrors_jobTitle, <- newErrors_yearsExperience,
    <- newErrors_requiredSkills, <- newErrors_benefits, <- newErrors_jobDescription.
  split.
  - intros ->. repeat split; apply lookup_empty.
  - intros (H1 & H2 & H3 & H4 & H5). apply map_eq. intros k.
    rewrite lookup_empty.
    destruct (decide (k ∈ validatedFields)) as [Hk|Hk];
      [|now apply newErrors_other].
    unfold validatedFields in Hk.
    repeat (apply elem_of_union in Hk as [Hk|Hk]);
      apply elem_of_singleton in Hk; subst k; assumption.
Qed.

Lemma jobTitleError_some_iff (title : string) :
  is_Some (jobTitleError title) <->
  trim title = "" \/ (strLen title < 2)%Z \/ (200 < strLen title)%Z.
Proof.
  unfold jobTitleError.
  destruct (isEmpty (trim title)) eqn:He.
  - apply isEmpty_true in He. split; [now left | eauto].
  - assert (trim title ≠ "") by (intros E; apply isEmpty_true in E; congruence).
    destruct (Z.ltb_spec (strLen title) 2); [split; eauto|].
    destruct (Z.ltb_spec 200 (strLen title)); [split; eauto|].
    split; [intros [? ?]; discriminate | intros [?|[?|?]]; [done | lia | lia]].
Qed.

Lemma yearsError_cases (years : Z) :
  ((years < 0)%Z -> yearsError years = Some "Years of experience cannot be negative")
  /\ ((50 < years)%Z -> yearsError years = Some "Years of experience cannot exceed 50")
  /\ ((0 <= years <= 50)%Z -> yearsError years = None).
Proof.
  unfold yearsError.
  destruct (Z.ltb_spec years 0), (Z.ltb_spec 50 years);
    repeat split; intros; try reflexivity; lia.
Qed.

(** A whitespace-only title of 200 characters. *)
Lemma blank_title_required :
  newErrors (draftWithTitle (JS.repeat " " 200)) !! "jobTitle"
  = Some "Job title is required".
Proof. rewrite newErrors_jobTitle. vm_compute. reflexivity. Qed.

(** C6, as stated, fails: a job title of exactly 200 characters with every
    other field valid, and all the listed bounds respected, still gets an
    error keyed "jobTitle" when it is made of spaces only. *)
Lemma validateForm_blank_title_counterexample :
  let st := draftWithTitle (JS.repeat " " 200) in
  strLen (jobTitle (formData st)) = 200%Z
  /\ listedRulesHold st
  /\ newErrors st !! "jobTitle" = Some "Job title is required"
  /\ newErrors st <> ∅
  /\ snd (validateForm st) = false.
Proof.
  assert (newErrors (draftWithTitle (JS.repeat " " 200)) <> ∅) as Hne.
  { intros E. pose proof blank_title_required as H. rewrite E in H.
    rewrite lookup_empty in H. discriminate. }
  cbv zeta. split; [vm_compute; reflexivity|].
  split.
  { unfold listedRulesHold, titleTooShort, titleTooLong, yearsNegative,
      yearsAboveMax, tooManySkills, tooManyBenefits, descriptionTooLong.
    repeat split; vm_compute; intros H; discriminate. }
  split; [apply blank_title_required|].
  split; [exact Hne|].
  unfold validateForm. cbn [snd]. apply bool_decide_eq_false.
  intros Hsize. apply map_size_empty_iff in Hsize. contradiction.
Qed.

(** C6 (amended): for every draft, validateForm stores a mapping with an
    entry for each violated rule, each decided from its own field: the job
    title blank once trimmed, shorter than 2 or longer than 200; the years
    negative or above 50, with distinct messages; more than 20 skills;
    more than 15 benefits; a description longer than 10000.  It answers
    true, with the empty mapping, exactly when no rule is violated.  An
    empty and a 201-character job title each give an entry keyed
    "jobTitle"; a job title of exactly 200 characters that is not blank,
    with the other fields valid, gives the empty mapping. *)
Theorem validateForm_reports_each_violation (st : FormState) :
  errors (fst (validateForm st)) = newErrors st
  /\ (snd (validateForm st) = true <-> newErrors st = ∅)
  /\ newErrors st !! "jobTitle" = jobTitleError (jobTitle (formData st))
  /\ newErrors st !! "yearsExperience" = yearsError (yearsExperience (formData st))
  /\ newErrors st !! "requiredSkills" = skillsError (selectedSkills st)
  /\ newErrors st !! "benefits" = benefitsError (selectedBenefits st)
  /\ newErrors st !! "jobDescription" = descriptionError (jobDescription (formData st))
  /\ (is_Some (newErrors st !! "jobTitle") <->
      titleBlank st \/ titleTooShort st \/ titleTooLong st)
  /\ (is_Some (newErrors st !! "yearsExperience") <->
      yearsNegative st \/ yearsAboveMax st)
  /\ (is_Some (newErrors st !! "requiredSkills") <-> tooManySkills st)
  /\ (is_Some (newErrors st !! "benefits") <-> tooManyBenefits st)
  /\ (is_Some (newErrors st !! "jobDescription") <-> descriptionTooLong st)
  /\ (newErrors st = ∅ <-> ~ titleBlank st /\ listedRulesHold st)
  /\ (jobTitle (formData st) = "" -> is_Some (newErrors st !! "jobTitle"))
  /\ (strLen (jobTitle (formData st)) = 201%Z -> is_Some (newErrors st !! "jobTitle"))
  /\ (strLen (jobTitle (formData st)) = 200%Z -> ~ titleBlank st ->
      ~ yearsNegative st -> ~ yearsAboveMax st -> ~ tooManySkills st ->
      ~ tooManyBenefits st -> ~ descriptionTooLong st -> newErrors st = ∅)
  /\ (yearsNegative st ->
      newErrors st !! "yearsExperience" = Some "Years of experience cannot be negative")
  /\ (yearsAboveMax st ->
      newErrors st !! "yearsExperience" = Some "Years of experience cannot exceed 50").
Proof.
  assert (is_Some (newErrors st !! "jobTitle") <->
          titleBlank st \/ titleTooShort st \/ titleTooLong st) as Htitle.
  { rewrite newErrors_jobTitle. apply jobTitleError_some_iff. }
  assert (is_Some (newErrors st !! "yearsExperience") <->
          yearsNegative st \/ yearsAboveMax st) as Hyears.
  { rewrite newErrors_yearsExperience.
    unfold yearsNegative, yearsAboveMax, yearsError.
    destruct (Z.ltb_spec (yearsExperience (formData st)) 0);
      [split; eauto|].
    destruct (Z.ltb_spec 50 (yearsExperience (formData st)));
      [split; eauto|].
    split; [intros [? ?]; discriminate | intros [?|?]; lia]. }
  assert (is_Some (newErrors st !! "requiredSkills") <-> tooManySkills st) as Hskills.
  { rewrite newErrors_requiredSkills. unfold tooManySkills, skillsError.
    destruct (Z.ltb_spec 20 (arrLen (selectedSkills st)));
      (split; [intros [? ?]; try discriminate; lia | intros; try lia; eauto]). }
  assert (is_Some (newErrors st !! "benefits") <-> tooManyBenefits st) as Hbenefits.
  { rewrite newErrors_benefits. unfold tooManyBenefits, benefitsError.
    destruct (Z.ltb_spec 15 (arrLen (selectedBenefits st)));
      (split; [intros [? ?]; try discriminate; lia | intros; try lia; eauto]). }
  assert (is_Some (newErrors st !! "jobDescription") <-> descriptionTooLong st)
    as Hdescription.
  { rewrite newErrors_jobDescription. unfold descriptionTooLong, descriptionError.
    destruct (Z.ltb_spec 10000 (strLen (jobDescription (formData st))));
      (split; [intros [? ?]; try discriminate; lia | intros; try lia; eauto]). }
  assert (newErrors st = ∅ <-> ~ titleBlank st /\ listedRulesHold st) as Hempty.
  { rewrite newErrors_empty_iff.
    rewrite <- newErrors_jobTitle, <- newErrors_yearsExperience,
      <- newErrors_requiredSkills, <- newErrors_benefits, <- newErrors_jobDescription.
    rewrite !eq_None_not_Some, Htitle, Hyears, Hskills, Hbenefits, Hdescription.
    unfold listedRulesHold. tauto. }
  split; [reflexivity|].
  split.
  { unfold validateForm. cbn [snd]. rewrite bool_decide_eq_true.
    apply map_size_empty_iff. }
  split; [apply newErrors_jobTitle|].
  split; [apply newErrors_yearsExperience|].
  split; [apply newErrors_requiredSkills|].
  split; [apply newErrors_benefits|].
  split; [apply newErrors_jobDescription|].
  split; [exact Htitle|]. split; [exact Hyears|]. split; [exact Hskills|].
  split; [exact Hbenefits|]. split; [exact Hdescription|]. split; [exact Hempty|].
  split.
  { intros E. apply Htitle. left. unfold titleBlank. now rewrite E. }
  split.
  { intros E. apply Htitle. right. right. unfold titleTooLong. lia. }
  split.
  { intros E Hb Hy1 Hy2 Hs Hbe Hd. apply Hempty. split; [exact Hb|].
    unfold listedRulesHold, titleTooShort, titleTooLong. repeat split; try assumption; lia. }
  split.
  { intros H. rewrite newErrors_yearsExperience. now apply yearsError_cases. }
  intros H. rewrite newErrors_yearsExperience. now apply yearsError_cases.
Qed.

Lemma validateForm_reports_each_violation_witness :
  newErrors (draftWithYears (-1)) !! "yearsExperience"
  = Some "Years of experience cannot be negative"
  /\ newErrors (draftWithYears 51) !! "yearsExperience"
     = Some "Years of experience cannot exceed 50"
  /\ newErrors (draftWithTitle ("A" +:+ JS.repeat "b" 199)) = ∅.
Proof.
  split; [|split].
  - apply (validateForm_reports_each_violation (draftWithYears (-1))).
    unfold yearsNegative. simpl. lia.
  - apply (validateForm_reports_each_violation (draftWithYears 51)).
    unfold yearsAboveMax. simpl. lia.
  - apply (validateForm_reports_each_violation
             (draftWithTitle ("A" +:+ JS.repeat "b" 199)));
      try (vm_compute; reflexivity);
      vm_compute; intros H; discriminate.
Defined.

Lemma company_fields_not_validated (k : string) :
  k ∈ validatedFields ->
  k ≠ "companyLocation" /\ k ≠ "companySize" /\ k ≠ "remoteRatio".
Proof.
  unfold validatedFields. rewrite !elem_of_union, !elem_of_singleton.
  intros [[[[->| ->]| ->]| ->]| ->]; repeat split; discriminate.
Qed.

(** C9: for every draft, the keys of the mapping validateForm builds are
    among jobTitle, yearsExperience, requiredSkills, benefits and
    jobDescription; companyLocation, companySize and remoteRatio are never
    keys, and the mapping is the same whatever their values, also outside
    the ranges the data model declares. *)
Theorem validateForm_keys (st : FormState) :
  dom (newErrors st) ⊆ validatedFields
  /\ ("companyLocation" ∉ dom (newErrors st))
  /\ ("companySize" ∉ dom (newErrors st))
  /\ ("remoteRatio" ∉ dom (newErrors st))
  /\ (forall location size ratio,
        newErrors (withCompany location size ratio st) = newErrors st)
  /\ newErrors (withCompany "Atlantis" "Gigantic" 250 (draftWithYears 4)) = ∅.
Proof.
  assert (dom (newErrors st) ⊆ validatedFields) as Hdom.
  { intros k Hk. apply elem_of_dom in Hk.
    destruct (decide (k ∈ validatedFields)) as [Hin|Hout]; [exact Hin|].
    rewrite (newErrors_other st k Hout) in Hk. now destruct Hk. }
  split; [exact Hdom|].
  split; [intros H; now apply Hdom, company_fields_not_validated in H|].
  split; [intros H; now apply Hdom, company_fields_not_validated in H|].
  split; [intros H; now apply Hdom, company_fields_not_validated in H|].
  split; [reflexivity|].
  apply newErrors_empty_iff. repeat split; vm_compute; reflexivity.
Qed.

End ValidatorFacts.

(** ** The selected-skills list *)

Module SkillsFacts.
Import JS Types PredictionForm StringFacts.

Lemma NoDup_bool_filter (f : string -> bool) (l : list string) :
  NoDup l -> NoDup (List.filter f l).
Proof. rewrite !NoDup_ListNoDup. apply List.NoDup_filter. Qed.

Lemma arrLen_filter (f : string -> bool) (l : list string) :
  (arrLen (List.filter f l) <= arrLen l)%Z.
Proof. unfold arrLen. pose proof (List.filter_length_le f l). lia. Qed.

Lemma arrLen_app (l k : list string) :
  arrLen (l ++ k) = (arrLen l + arrLen k)%Z.
Proof. unfold arrLen. rewrite List.length_app. lia. Qed.

Lemma filter_keeps_invariant (f : string -> bool) (l : list string) :
  skillsInvariant l -> skillsInvariant (List.filter f l).
Proof.
  intros [Hnd Hlen]. split; [now apply NoDup_bool_filter|].
  pose proof (arrLen_filter f l). lia.
Qed.

(** Appending an entry that is not in the list yet, below the limit. *)
Lemma snoc_keeps_invariant (l : list string) (x : string) :
  skillsInvariant l ->
  arrayIncludes l x = false ->
  (arrLen l <? VALIDATION_RULES.requiredSkills.maxItems)%Z = true ->
  skillsInvariant (l ++ [x]).
Proof.
  intros [Hnd Hlen] Hnotin Hroom. split.
  - apply NoDup_app. split; [exact Hnd|]. split; [|apply NoDup_singleton].
    intros y Hy Hyx. apply list_elem_of_singleton in Hyx. subst y.
    apply arrayIncludes_false_iff in Hnotin. apply Hnotin.
    now apply list_elem_of_In.
  - rewrite arrLen_app. apply Z.ltb_lt in Hroom.
    change (arrLen [x]) with 1%Z. lia.
Qed.

Lemma toggleSkill_keeps_invariant (skill : string) (prev : list string) :
  skillsInvariant prev -> skillsInvariant (toggleSkillUpdate skill prev).
Proof.
  intros Hinv. unfold toggleSkillUpdate.
  destruct (arrayIncludes prev skill) eqn:Hin;
    [now apply filter_keeps_invariant|].
  destruct (arrLen prev <? _)%Z eqn:Hroom; [|exact Hinv].
  now apply snoc_keeps_invariant.
Qed.

Lemma addCustomSkill_keeps_invariant (st : FormState) :
  skillsInvariant (selectedSkills st) ->
  skillsInvariant (selectedSkills (addCustomSkill st)).
Proof.
  intros Hinv. unfold addCustomSkill.
  destruct (isEmpty (trim (customSkill st))); [exact Hinv|].
  destruct (arrayIncludes (selectedSkills st) (trim (customSkill st))) eqn:Hin;
    [exact Hinv|].
  destruct (arrLen (selectedSkills st) <? _)%Z eqn:Hroom; [|exact Hinv].
  cbn. now apply snoc_keeps_invariant.
Qed.

(** *** What the recommender can return *)

Lemma exactMatch_in_table (m : list (string * SkillSet)) (t : string)
      (skills : SkillSet) :
  exactMatch m t = Some skills -> In skills (List.map snd m).
Proof.
  induction m as [|[k v] m IH]; simpl; [discriminate|].
  destruct (includes t k); [intros [= ->]; now left | intros H; right; auto].
Qed.

Lemma partialMatch_in_table (t : string) :
  partialMatch t = noSkills \/ In (partialMatch t) (List.map snd ROLE_SKILL_MAPPING).
Proof.
  unfold partialMatch.
  repeat match goal with
         | |- context [if ?c then _ else _] =>
             destruct c; [right; vm_compute; tauto|]
         end.
  now left.
Qed.

Lemma getRecommendedSkills_in_table (jobTitle : string) :
  getRecommendedSkills jobTitle = noSkills
  \/ In (getRecommendedSkills jobTitle) (List.map snd ROLE_SKILL_MAPPING).
Proof.
  unfold getRecommendedSkills.
  destruct (isEmpty jobTitle); [now left|].
  destruct (exactMatch _ _) eqn:He.
  - right. eapply exactMatch_in_table, He.
  - apply partialMatch_in_table.
Qed.

(** No core list of the taxonomy names a skill twice. *)
Lemma taxonomy_core_NoDup :
  Forall (fun skills => NoDup (core skills)) (List.map snd ROLE_SKILL_MAPPING).
Proof. apply (bool_decide_unpack _). vm_compute. exact I. Qed.

Lemma recommended_core_NoDup (jobTitle : string) :
  NoDup (core (getRecommendedSkills jobTitle)).
Proof.
  destruct (getRecommendedSkills_in_table jobTitle) as [-> | Hin].
  - apply NoDup_nil_2.
  - pose proof taxonomy_core_NoDup as H. rewrite Forall_forall in H.
    apply H. now apply list_elem_of_In.
Qed.

Lemma autoSelect_keeps_invariant (st : FormState) :
  skillsInvariant (selectedSkills st) ->
  skillsInvariant (selectedSkills (autoSelectEffect st)).
Proof.
  intros Hinv. unfold autoSelectEffect.
  destruct (_ && _ && _); [|exact Hinv].
  cbn. split.
  - apply (sublist_NoDup _ (core (recommendedSkills st)));
      [apply recommended_core_NoDup | apply sublist_take].
  - unfold arrLen.
    pose proof (List.firstn_le_length 4 (core (recommendedSkills st))).
    unfold VALIDATION_RULES.requiredSkills.maxItems. lia.
Qed.

Lemma addAllEssential_keeps_invariant (st : FormState) :
  skillsInvariant (selectedSkills st) ->
  skillsInvariant (selectedSkills (addAllEssential st)).
Proof.
  intros [Hnd Hlen]. unfold addAllEssential. cbn.
  set (sel := selectedSkills st) in *.
  set (cs := core (recommendedSkills st)).
  set (fresh := List.filter (fun s => negb (arrayIncludes sel s)) cs).
  destruct (arrLen sel + arrLen fresh <=? VALIDATION_RULES.requiredSkills.maxItems)%Z
    eqn:Hroom.
  - assert (List.filter
              (fun skill => negb (arrayIncludes sel skill) && true) cs = fresh) as ->.
    { apply List.filter_ext. intros a. apply andb_true_r. }
    split.
    + apply NoDup_app. split; [exact Hnd|]. split.
      * intros x Hx Hfresh. apply list_elem_of_In, List.filter_In in Hfresh.
        destruct Hfresh as [_ Hneg]. apply negb_true_iff in Hneg.
        apply arrayIncludes_false_iff in Hneg. apply Hneg.
        now apply list_elem_of_In.
      * apply NoDup_bool_filter, recommended_core_NoDup.
    + rewrite arrLen_app. now apply Z.leb_le in Hroom.
  - assert (List.filter
              (fun skill => negb (arrayIncludes sel skill) && false) cs = []) as ->.
    { clear. induction cs as [|a cs IH]; simpl; [reflexivity|].
      now rewrite andb_false_r. }
    rewrite app_nil_r. now split.
Qed.

Lemma removeAllRecommended_keeps_invariant (st : FormState) :
  skillsInvariant (selectedSkills st) ->
  skillsInvariant (selectedSkills (removeAllRecommended st)).
Proof. intros Hinv. cbn. now apply filter_keeps_invariant. Qed.

(** C10: toggleSkill, addCustomSkill and the auto-select effect each keep
    the selected-skills list free of duplicates and at most 20 long
    ([VALIDATION_RULES.requiredSkills.maxItems]), provided it was so
    before. *)
Theorem selected_skills_invariant_preserved (st : FormState) :
  skillsInvariant (selectedSkills st) ->
  (forall skill, skillsInvariant (selectedSkills (toggleSkill skill st)))
  /\ skillsInvariant (selectedSkills (addCustomSkill st))
  /\ skillsInvariant (selectedSkills (autoSelectEffect st))
  /\ VALIDATION_RULES.requiredSkills.maxItems = 20%Z.
Proof.
  intros Hinv. split; [|split; [|split; [|reflexivity]]].
  - intros skill. cbn. now apply toggleSkill_keeps_invariant.
  - now apply addCustomSkill_keeps_invariant.
  - now apply autoSelect_keeps_invariant.
Qed.

Lemma selected_skills_invariant_preserved_witness :
  skillsInvariant
    (selectedSkills
       (toggleSkill "SQL" (setSelectedSkills ["Python"; "Docker"] initialState))).
Proof.
  apply (selected_skills_invariant_preserved
           (setSelectedSkills ["Python"; "Docker"] initialState)).
  split; [apply (bool_decide_unpack _); vm_compute; exact I|].
  vm_compute. intros H; discriminate.
Defined.

(** The two quick-action buttons write the list too; every write keeps the
    invariant, so every state the form reaches satisfies it. *)
Lemma skillsStep_keeps_invariant (st st' : FormState) :
  skillsStep st st' ->
  skillsInvariant (selectedSkills st) -> skillsInvariant (selectedSkills st').
Proof.
  intros Hstep Hinv. destruct Hstep as [skill st| st | st | st | st | st st' Heq].
  - cbn. now apply toggleSkill_keeps_invariant.
  - now apply addCustomSkill_keeps_invariant.
  - now apply autoSelect_keeps_invariant.
  - now apply addAllEssential_keeps_invariant.
  - now apply removeAllRecommended_keeps_invariant.
  - now rewrite Heq.
Qed.

Lemma reachable_invariant (st : FormState) :
  reachable st -> skillsInvariant (selectedSkills st).
Proof.
  induction 1 as [|st st' _ IH Hstep].
  - split; [apply NoDup_nil_2 | vm_compute; intros H; discriminate].
  - eapply skillsStep_keeps_invariant; eassumption.
Qed.

End SkillsFacts.

(** ** The prediction API route *)

Module RouteFacts.
Import JS PredictRoute.
Local Open Scope float_scope.

(** C2: when the fetch to the backend throws, POST answers with the
    degraded-mode result instead of a failure: status 200 and a body with
    predictedSalary 115000, confidenceInterval {lower: 92481, upper:
    137519} and a factors list of exactly one entry, named "Service
    Unavailable", with impact 0. *)
Theorem POST_network_failure_fallback
        (input : JSON) (fetch : JSON -> FetchResult) (message : string) :
  fetch input = FetchRejects message ->
  POST (BodyResolves input) fetch = NextResponse_json (Some mockResult)
  /\ responseStatus (POST (BodyResolves input) fetch) = 200%Z
  /\ prop "predictedSalary" mockResult = Some (JNumber 115000)
  /\ prop "confidenceInterval" mockResult
     = Some (JObject [ ("lower", JNumber 92481); ("upper", JNumber 137519) ])
  /\ exists factor,
       prop "factors" mockResult = Some (JArray [factor])
       /\ prop "name" factor = Some (JString "Service Unavailable")
       /\ prop "impact" factor = Some (JNumber 0).
Proof.
  intros Hfetch. unfold POST. rewrite Hfetch.
  repeat split. eexists. repeat split.
Qed.

Lemma POST_network_failure_fallback_witness :
  POST (BodyResolves (JObject [ ("jobTitle", JString "Data Scientist") ]))
       (fun _ => FetchRejects "fetch failed")
  = NextResponse_json (Some mockResult).
Proof.
  apply (POST_network_failure_fallback
           (JObject [ ("jobTitle", JString "Data Scientist") ])
           (fun _ => FetchRejects "fetch failed") "fetch failed").
  reflexivity.
Defined.

(** On a non-success status that a response with a body may carry, the
    route forwards what the service sent. *)
Lemma POST_forwards_service_error
      (input : JSON) (fetch : JSON -> FetchResult) (response : Response)
      (fields : list (string * JSON)) (text : string) :
  fetch input = FetchResolves response ->
  ok response = false ->
  jsonThrows (Some JNull) (status response) = false ->
  bodyJson response = inr (JObject fields) ->
  lookupField fields "message" = Some (JString text) ->
  isEmpty text = false ->
  responseStatus (POST (BodyResolves input) fetch) = status response
  /\ exists b, body (POST (BodyResolves input) fetch) = Some b
               /\ prop "message" b = Some (JString text).
Proof.
  intros Hfetch Hok Hthrows Hbody Hmsg Htext. unfold POST.
  rewrite Hfetch, Hok, Hbody. cbn [negb].
  change (jsonThrows (Some ?b) (status response))
    with (jsonThrows (Some JNull) (status response)).
  rewrite Hthrows. cbn [responseStatus body].
  split; [reflexivity|]. eexists. split; [reflexivity|].
  cbn. rewrite Hmsg. cbn. now rewrite Htext.
Qed.

End RouteFacts.

(** ** The analytics dashboard *)

Module AnalyticsFacts.
Import Analytics.

(** C8: for every filteredRecords >= 0 exactly one of the three tests
    holds: hasNoData when it is 0, hasInsufficientData when it is between
    1 and 9, hasMinimumData when it is 10 or more; and the overview shows
    the matching state.  With 9 records it shows the insufficient-data
    state, with 10 the cards and charts. *)
Theorem data_sufficiency_classification (d : AnalyticsData) :
  (0 <= filteredRecords (metadata d))%Z ->
  (hasNoData (Some d) = true <-> filteredRecords (metadata d) = 0%Z)
  /\ (hasInsufficientData (Some d) = true <->
      (0 < filteredRecords (metadata d) < 10)%Z)
  /\ (hasMinimumData (Some d) = true <-> (10 <= filteredRecords (metadata d))%Z)
  /\ (match classifySpec (filteredRecords (metadata d)) with
      | NoData =>
          hasNoData (Some d) = true /\ hasInsufficientData (Some d) = false
          /\ hasMinimumData (Some d) = false
          /\ exists message, OverviewTab (Some d) = EmptyDataState no_data message
      | InsufficientData =>
          hasNoData (Some d) = false /\ hasInsufficientData (Some d) = true
          /\ hasMinimumData (Some d) = false
          /\ exists message,
               OverviewTab (Some d) = EmptyDataState insufficient_data message
      | SufficientData =>
          hasNoData (Some d) = false /\ hasInsufficientData (Some d) = false
          /\ hasMinimumData (Some d) = true
          /\ OverviewTab (Some d) = ChartSet true
      end)
  /\ (filteredRecords (metadata d) = 9%Z ->
      OverviewTab (Some d)
      = EmptyDataState insufficient_data
          "Only 9 records match your filters. Analytics require at least 10 records for meaningful insights.")
  /\ (filteredRecords (metadata d) = 10%Z -> OverviewTab (Some d) = ChartSet true).
Proof.
  intros Hpos. unfold hasNoData, hasInsufficientData, hasMinimumData,
    OverviewTab, classifySpec.
  cbn [hasNoData hasInsufficientData hasMinimumData].
  set (n := filteredRecords (metadata d)) in *.
  split; [apply Z.eqb_eq|].
  split; [rewrite andb_true_iff, !Z.ltb_lt; tauto|].
  split; [apply Z.leb_le|].
  split.
  - destruct (Z.eqb_spec n 0) as [E|E].
    + rewrite E. cbn. repeat split. eexists. reflexivity.
    + destruct (Z.ltb_spec n 10) as [L|L].
      * assert ((0 <? n)%Z = true) as -> by (apply Z.ltb_lt; lia).
        assert ((10 <=? n)%Z = false) as -> by (apply Z.leb_gt; lia).
        cbn. repeat split. eexists. reflexivity.
      * assert ((10 <=? n)%Z = true) as -> by (apply Z.leb_le; lia).
        rewrite andb_false_r. repeat split.
  - split; intros ->; reflexivity.
Qed.

Lemma data_sufficiency_classification_witness :
  OverviewTab (Some (mkAnalyticsData (mkAnalyticsMetadata 15000 9)))
  = EmptyDataState insufficient_data
      "Only 9 records match your filters. Analytics require at least 10 records for meaningful insights."
  /\ OverviewTab (Some (mkAnalyticsData (mkAnalyticsMetadata 15000 10)))
     = ChartSet true.
Proof.
  split.
  - apply (data_sufficiency_classification
             (mkAnalyticsData (mkAnalyticsMetadata 15000 9))); simpl; [lia | reflexivity].
  - apply (data_sufficiency_classification
             (mkAnalyticsData (mkAnalyticsMetadata 15000 10))); simpl; [lia | reflexivity].
Defined.

End AnalyticsFacts.

(** ** The prediction client *)

Module ClientFacts.
Import JS PredictPage.

Section WithNumberFormat.

Variable numberToString : float -> string.











End WithNumberFormat.




End ClientFacts.

(** ** The result presenter *)

Module PresenterFacts.
Import JS Types PredictionResults.
Local Open Scope float_scope.

(** *** Comparisons of binary64 numbers *)

Lemma is_nan_Prim2SF (x : float) :
  PrimFloat.is_nan x = true -> Prim2SF x = S754_nan.
Proof.
  unfold PrimFloat.is_nan. rewrite FloatAxioms.eqb_spec.
  destruct (Prim2SF x) as [s|s| |s m e]; try reflexivity.
  - destruct s; discriminate.
  - destruct s; discriminate.
  - unfold SFeqb, SFcompare.
    rewrite Z.compare_refl, Pos.compare_cont_refl. destruct s; discriminate.
Qed.

Lemma nan_not_below (x c : float) :
  PrimFloat.is_nan x = true -> (x <? c) = false /\ (c <? x) = false.
Proof.
  intros H. apply is_nan_Prim2SF in H. rewrite !FloatAxioms.ltb_spec, H.
  split; [reflexivity|]. unfold SFltb, SFcompare. now destruct (Prim2SF c).
Qed.


(** Two positive finite numbers [lo] and [hi], the exponent of [lo] below
    that of [hi]: what is below [lo] is not above either, and what is above
    [hi] is not below [lo]. *)
Lemma SFltb_two_bounds (sx : spec_float) (mlo mhi : positive) (elo ehi : Z) :
  (elo < ehi)%Z ->
  let lo := S754_finite false mlo elo in
  let hi := S754_finite false mhi ehi in
  (SFltb sx lo = true -> SFltb hi sx = false /\ SFltb lo sx = false)
  /\ (SFltb hi sx = true -> SFltb sx lo = false).
Proof.
  intros Hexp lo hi. subst lo hi.
  destruct sx as [s|s| |s m e]; unfold SFltb, SFcompare.
  - destruct s; split; intros; try split; congruence.
  - destruct s; split; intros; try split; congruence.
  - split; intros; try split; congruence.
  - destruct s; [split; intros; try split; congruence|].
    change (PosDef.Pos.compare_cont Eq mlo m) with (Pos.compare mlo m).
    change (PosDef.Pos.compare_cont Eq m mlo) with (Pos.compare m mlo).
    rewrite (Pos.compare_antisym m mlo).
    destruct (Z.compare_spec e elo) as [E1|E1|E1];
      destruct (Z.compare_spec ehi e) as [E2|E2|E2];
      try (exfalso; clear -E1 E2 Hexp; lia);
      destruct (Z.compare_spec elo e) as [E3|E3|E3];
      try (exfalso; clear -E1 E3; lia);
      try (split; intros; try split; first [reflexivity | discriminate]).
    all: destruct (Pos.compare m mlo);
      split; intros; try split; first [reflexivity | discriminate].
Qed.

Lemma Prim2SF_60 : Prim2SF 60 = S754_finite false 8444249301319680 (-47).
Proof. vm_compute. reflexivity. Qed.

Lemma Prim2SF_95 : Prim2SF 95 = S754_finite false 6685030696878080 (-46).
Proof. vm_compute. reflexivity. Qed.

(** A number below 60 is not above 60 or 95; a number above 95 is not
    below 60. *)
Lemma below_60_above_95 (x : float) :
  ((x <? 60) = true -> (95 <? x) = false /\ (60 <? x) = false)
  /\ ((95 <? x) = true -> (x <? 60) = false).
Proof.
  rewrite !FloatAxioms.ltb_spec, Prim2SF_60, Prim2SF_95.
  apply SFltb_two_bounds. reflexivity.
Qed.

(** [Math.max(60, Math.min(95, x))] is [clamp(x, 60, 95)], for every
    number [x], [NaN] and the infinities included. *)
Lemma max_min_is_clamp (x : float) :
  Math_max 60 (Math_min 95 x) = clamp x 60 95.
Proof.
  unfold clamp.
  assert (forall y, Math_min 95 y
                    = if PrimFloat.is_nan y then y
                      else if 95 <? y then 95 else y) as Hmin.
  { intros y. unfold Math_min. change (PrimFloat.is_nan 95) with false. cbv iota.
    destruct (PrimFloat.is_nan y); [reflexivity|].
    destruct (95 <? y); [reflexivity|].
    change (classify 95) with PNormal. now destruct (y <? 95). }
  assert (forall y, Math_max 60 y
                    = if PrimFloat.is_nan y then y
                      else if 60 <? y then y
                           else if y <? 60 then 60 else y) as Hmax.
  { intros y. unfold Math_max. change (PrimFloat.is_nan 60) with false. cbv iota.
    destruct (PrimFloat.is_nan y); [reflexivity|].
    destruct (60 <? y); [reflexivity|].
    change (classify 60) with PNormal. reflexivity. }
  rewrite Hmin.
  destruct (PrimFloat.is_nan x) eqn:Hnan.
  - destruct (nan_not_below x 60 Hnan) as [-> _].
    destruct (nan_not_below x 95 Hnan) as [_ ->].
    rewrite Hmax. now rewrite Hnan.
  - destruct (below_60_above_95 x) as [Hlow Hhigh].
    destruct (x <? 60) eqn:H60.
    + destruct (Hlow eq_refl) as [H95 H60'].
      rewrite H95, Hmax, Hnan, H60', H60. reflexivity.
    + destruct (95 <? x) eqn:H95.
      * vm_compute. reflexivity.
      * rewrite Hmax, Hnan, H60. now destruct (60 <? x).
Qed.

(** *** The metrics *)

Lemma zero_not_truthy (v : float) : PrimFloat.is_zero v = true -> truthy v = false.
Proof. intros H. unfold truthy. now rewrite H, orb_true_r. Qed.

Lemma orNumber_absentOrZero (x : option float) (d : float) :
  absentOrZero x = true -> orNumber x d = d.
Proof.
  destruct x as [v|]; [|reflexivity]. cbn. intros H.
  now rewrite (zero_not_truthy v H).
Qed.

Lemma precision_default (r : PredictionResult) :
  intervalOrSalaryAbsentOrZero r ->
  getPredictionPrecision r = mkPrecision 85 (predictedSalary' r * 0.3) None.
Proof.
  unfold intervalOrSalaryAbsentOrZero, getPredictionPrecision. intros H.
  destruct (upper (confidenceInterval' r)) as [u|] eqn:Hu; [|reflexivity].
  destruct (lower (confidenceInterval' r)) as [l|] eqn:Hl; [|reflexivity].
  match goal with
  | |- (if ?guard then _ else _) = _ =>
      assert (guard = true) as ->; [|reflexivity]
  end.
  destruct H as [Hsalary | Hci].
  - assert (predictedSalary' r = 0) as ->
        by (unfold predictedSalary'; now apply orNumber_absentOrZero).
    change (truthy 0) with false. apply orb_true_iff. left. apply orb_true_r.
  - unfold confidenceInterval' in Hu, Hl.
    destruct (confidenceInterval r) as [ci|].
    + rewrite Hu, Hl in Hci. cbn [absentOrZero] in Hci.
      destruct Hci as [Hz|Hz]; rewrite (zero_not_truthy _ Hz); cbn [negb];
        rewrite ?orb_true_r; reflexivity.
    + cbn [upper] in Hu. injection Hu as <-. reflexivity.
Qed.

(** C4, as stated, fails: the interval {0, 80000} is present and the
    predicted salary 40000 is not zero, yet the presenter returns the
    default 85 with no margin, where the formulas give 60 and 40000. *)
Lemma precision_zero_lower_bound_counterexample :
  confidenceInterval fromZeroResult = Some (mkInterval (Some 0) (Some 80000))
  /\ predictedSalary fromZeroResult = Some 40000
  /\ margin (getPredictionPrecision fromZeroResult) = None
  /\ specMargin 0 80000 = 40000
  /\ percentage (getPredictionPrecision fromZeroResult) = 85
  /\ specPrecision 0 80000 40000 = 60
  /\ (85 =? 60) = false.
Proof. repeat split; vm_compute; reflexivity. Qed.

(** C4 (amended): for every PredictionResult whose confidence-interval
    bounds are both present and not zero and whose predictedSalary is
    present and not zero (none of them [NaN]), the presenter computes
    margin of error = round((upper - lower) / 2) and prediction precision
    = clamp(round((1 - (upper - lower) / predictedSalary) * 100), 60, 95);
    for predictedSalary 125000 and the interval {110000, 140000} the
    margin is 15000 and the precision is 76. *)
Theorem precision_from_interval (r : PredictionResult) (lo up salary : float) :
  predictedSalary r = Some salary ->
  confidenceInterval r = Some (mkInterval (Some lo) (Some up)) ->
  truthy lo = true -> truthy up = true -> truthy salary = true ->
  margin (getPredictionPrecision r) = Some (specMargin lo up)
  /\ percentage (getPredictionPrecision r) = specPrecision lo up salary
  /\ range (getPredictionPrecision r) = up - lo
  /\ margin (getPredictionPrecision exampleResult) = Some 15000
  /\ percentage (getPredictionPrecision exampleResult) = 76.
Proof.
  intros Hsalary Hci Hlo Hup Hs.
  assert (getPredictionPrecision r
          = mkPrecision
              (Math_max 60 (Math_min 95 (Math_round ((1 - (up - lo) / salary) * 100))))
              (up - lo) (Some (Math_round ((up - lo) / 2)))) as ->.
  { unfold getPredictionPrecision, confidenceInterval', predictedSalary', orNumber.
    assert ((salary =? 0) = false) as Hnz.
    { unfold truthy in Hs. apply negb_true_iff, orb_false_iff in Hs. apply Hs. }
    rewrite Hci, Hsalary, Hs. cbn [upper lower].
    rewrite Hlo, Hup, Hs, Hnz. reflexivity. }
  cbn [margin percentage range]. unfold specPrecision, specMargin.
  rewrite max_min_is_clamp.
  repeat split; vm_compute; reflexivity.
Qed.

Lemma precision_from_interval_witness :
  percentage (getPredictionPrecision exampleResult) = specPrecision 110000 140000 125000
  /\ margin (getPredictionPrecision exampleResult) = Some (specMargin 110000 140000).
Proof.
  destruct (precision_from_interval exampleResult 110000 140000 125000)
    as (Hm & Hp & _); try reflexivity.
  split; [exact Hp | exact Hm].
Defined.

(** C5, as stated, fails on both counts.  Without a model accuracy the
    displayed model confidence is 73, the default accuracy 0.7336 times
    100 rounded, not 73.36.  And for the interval {0, 80000} with the
    predicted salary 40000 the precision is the default 85, but the
    default has no margin: 0.3 times the salary, 12000, is its range, the
    margin of error the component would display is 0, and the line it
    shows is the estimate of 0.2 times the salary, 8000. *)
Lemma model_confidence_default_counterexample :
  model_accuracy' exampleResult = None
  /\ getModelConfidence exampleResult = 73
  /\ (getModelConfidence exampleResult =? 73.36) = false
  /\ intervalOrSalaryAbsentOrZero fromZeroResult
  /\ percentage (getPredictionPrecision fromZeroResult) = 85
  /\ margin (getPredictionPrecision fromZeroResult) = None
  /\ range (getPredictionPrecision fromZeroResult) = 12000
  /\ displayedMargin fromZeroResult = 0
  /\ (displayedMargin fromZeroResult =? predictedSalary' fromZeroResult * 0.3) = false
  /\ confidenceLine fromZeroResult = EstimatedLine 8000.
Proof.
  repeat split; try (vm_compute; reflexivity).
  right. cbn. left. reflexivity.
Qed.

(** C5 (amended): when the metadata model accuracy is absent or zero, the
    accuracy the presenter uses is the fixed default 0.7336 (73.36%) and
    the displayed model confidence is its rounded percentage, 73; a model
    accuracy that is present and not zero (nor [NaN]) is used as it is.
    When the confidence interval or the predicted salary is absent or
    zero, the prediction precision is 85, with a range of 0.3 times the
    predicted salary and no margin. *)
Theorem presenter_defaults (r : PredictionResult) :
  (absentOrZero (model_accuracy' r) = true ->
     modelAccuracy r = 0.7336
     /\ getModelConfidence r = 73)
  /\ (forall accuracy, model_accuracy' r = Some accuracy -> truthy accuracy = true ->
        modelAccuracy r = accuracy
        /\ getModelConfidence r = Math_round (accuracy * 100))
  /\ (intervalOrSalaryAbsentOrZero r ->
      percentage (getPredictionPrecision r) = 85
      /\ range (getPredictionPrecision r) = predictedSalary' r * 0.3
      /\ margin (getPredictionPrecision r) = None).
Proof.
  split; [|split].
  - intros H.
    assert (modelAccuracy r = 0.7336) as E
        by (unfold modelAccuracy; now apply orNumber_absentOrZero).
    split; [exact E|]. unfold getModelConfidence. rewrite E.
    vm_compute. reflexivity.
  - intros accuracy Hacc Ht.
    assert (modelAccuracy r = accuracy) as E
        by (unfold modelAccuracy, orNumber; now rewrite Hacc, Ht).
    split; [exact E|]. unfold getModelConfidence. now rewrite E.
  - intros H. now rewrite (precision_default r H).
Qed.

Lemma presenter_defaults_witness :
  modelAccuracy exampleResult = 0.7336
  /\ getModelConfidence exampleResult = 73
  /\ percentage (getPredictionPrecision fromZeroResult) = 85
  /\ margin (getPredictionPrecision fromZeroResult) = None.
Proof.
  destruct (presenter_defaults exampleResult) as (Hacc & _ & _).
  destruct (presenter_defaults fromZeroResult) as (_ & _ & Hprec).
  destruct (Hacc eq_refl) as [Ha Hc].
  destruct Hprec as (Hp & _ & Hm); [right; cbn; left; reflexivity|].
  repeat split; assumption.
Defined.

End PresenterFacts.

(* ===================================================================== *)
(** * Further properties *)
(* ===================================================================== *)

(** ** The form: toggles, custom entries, submission, reachable states *)

Module FormEvents.
Import JS Types PredictionForm StringFacts ValidatorFacts SkillsFacts.

(** *** Toggling *)

Lemma In_filter_ne (x y : string) (l : list string) :
  In x (List.filter (fun s => negb (String.eqb s y)) l) <-> In x l /\ x <> y.
Proof.
  rewrite List.filter_In, negb_true_iff. split; intros [H1 H2]; split; trivial.
  - intros ->. now rewrite String.eqb_refl in H2.
  - now apply String.eqb_neq.
Qed.


(** X1: toggling a skill changes the membership of that skill only: any
    other skill is selected afterwards exactly if it was before, and the
    toggled skill is selected afterwards exactly if it was not selected
    and the list had fewer than 20 entries. *)
Theorem toggleSkill_membership (skill : string) (prev : list string) :
  (forall other, other <> skill ->
     (In other (toggleSkillUpdate skill prev) <-> In other prev))
  /\ (In skill (toggleSkillUpdate skill prev) <->
      ~ In skill prev /\ (arrLen prev < 20)%Z).
Proof.
  unfold toggleSkillUpdate.
  destruct (arrayIncludes prev skill) eqn:Hin.
  - apply arrayIncludes_true_iff in Hin. split.
    + intros other Hne. rewrite In_filter_ne. tauto.
    + rewrite In_filter_ne. tauto.
  - apply arrayIncludes_false_iff in Hin.
    change VALIDATION_RULES.requiredSkills.maxItems with 20%Z.
    destruct (Z.ltb_spec (arrLen prev) 20) as [Hroom|Hfull].
    + split.
      * intros other Hne. rewrite List.in_app_iff. simpl. split; [|tauto].
        intros [H|[H|[]]]; [exact H | congruence].
      * rewrite List.in_app_iff. simpl. tauto.
    + split; [tauto|]. split; [tauto | lia].
Qed.

(** X2: a skill button is disabled exactly when clicking it would leave
    the selected list as it is. *)
Theorem toggleSkill_unchanged_iff_disabled (skill : string) (st : FormState) :
  selectedSkills (toggleSkill skill st) = selectedSkills st
  <-> skillButtonDisabled skill st = true.
Proof.
  unfold toggleSkill, skillButtonDisabled, toggleSkillUpdate. cbn [selectedSkills setSelectedSkills].
  set (prev := selectedSkills st).
  change VALIDATION_RULES.requiredSkills.maxItems with 20%Z.
  destruct (arrayIncludes prev skill) eqn:Hin; cbn [negb andb].
  - split; [|discriminate]. intros Heq.
    apply arrayIncludes_true_iff in Hin. rewrite <- Heq in Hin.
    apply In_filter_ne in Hin. tauto.
  - destruct (Z.ltb_spec (arrLen prev) 20) as [Hroom|Hfull].
    + split.
      * intros Heq. apply (f_equal (@List.length string)) in Heq.
        rewrite List.length_app in Heq. simpl in Heq. lia.
      * intros H. apply Z.leb_le in H. lia.
    + split; [|reflexivity]. intros _. now apply Z.leb_le.
Qed.



(** *** Trimming *)

Lemma trimEnd_head (c : ascii) (s : string) :
  isWhiteSpace c = false -> exists t, trimEnd (String c s) = String c t.
Proof. intros H. simpl. rewrite H, andb_false_r. eauto. Qed.

Lemma trimEnd_idempotent (s : string) : trimEnd (trimEnd s) = trimEnd s.
Proof.
  induction s as [|c s IH]; [reflexivity|]. simpl.
  destruct (isEmpty (trimEnd s) && isWhiteSpace c) eqn:H; [reflexivity|].
  simpl. rewrite IH, H. reflexivity.
Qed.

Lemma trimStart_shape (s : string) :
  trimStart s = "" \/ exists c t, trimStart s = String c t /\ isWhiteSpace c = false.
Proof.
  induction s as [|c s IH]; [now left|]. simpl.
  destruct (isWhiteSpace c) eqn:H; [exact IH|]. right. eauto.
Qed.

Lemma trim_shape (s : string) :
  trim s = "" \/ exists c t, trim s = String c t /\ isWhiteSpace c = false.
Proof.
  unfold trim. destruct (trimStart_shape s) as [-> | (c & t & -> & Hc)]; [now left|].
  right. destruct (trimEnd_head c t Hc) as [t' Ht']. eauto.
Qed.

(** Trimming what is trimmed changes nothing. *)
Lemma trim_idempotent (s : string) : trim (trim s) = trim s.
Proof.
  destruct (trim_shape s) as [E | (c & t & E & Hc)].
  - now rewrite E.
  - assert (trimStart (trim s) = trim s) as Hs by (rewrite E; simpl; now rewrite Hc).
    unfold trim at 1. rewrite Hs. unfold trim. apply trimEnd_idempotent.
Qed.

(** *** Custom skills *)

(** X4: the Add handler appends the trimmed text of the input, and clears
    the input, exactly when the Add button is enabled and the trimmed text
    is not selected yet; otherwise it changes nothing.  Calling it again
    changes nothing more, and what it adds is never empty and never has
    white space around it. *)
Theorem addCustomSkill_effect (st : FormState) :
  (addSkillButtonDisabled st = false ->
   ~ In (trim (customSkill st)) (selectedSkills st) ->
   selectedSkills (addCustomSkill st)
   = (selectedSkills st ++ [trim (customSkill st)])%list
   /\ customSkill (addCustomSkill st) = "")
  /\ (addSkillButtonDisabled st = true
      \/ In (trim (customSkill st)) (selectedSkills st) ->
      addCustomSkill st = st)
  /\ addCustomSkill (addCustomSkill st) = addCustomSkill st
  /\ (forall x, In x (selectedSkills (addCustomSkill st)) ->
        In x (selectedSkills st) \/ (x <> "" /\ trim x = x)).
Proof.
  unfold addSkillButtonDisabled.
  change VALIDATION_RULES.requiredSkills.maxItems with 20%Z.
  assert (forall s : FormState,
            addCustomSkill s
            = if negb (isEmpty (trim (customSkill s)))
                 && negb (arrayIncludes (selectedSkills s) (trim (customSkill s)))
                 && (arrLen (selectedSkills s) <? 20)%Z
              then setCustomSkill ""
                     (setSelectedSkills (selectedSkills s ++ [trim (customSkill s)])%list s)
              else s) as Hdef by reflexivity.
  assert ((addCustomSkill st = st
           /\ (isEmpty (trim (customSkill st)) = true
               \/ In (trim (customSkill st)) (selectedSkills st)
               \/ (20 <= arrLen (selectedSkills st))%Z))
          \/ (isEmpty (trim (customSkill st)) = false
              /\ ~ In (trim (customSkill st)) (selectedSkills st)
              /\ (arrLen (selectedSkills st) < 20)%Z
              /\ addCustomSkill st
                 = setCustomSkill ""
                     (setSelectedSkills
                        (selectedSkills st ++ [trim (customSkill st)])%list st)))
    as Hcases.
  { rewrite (Hdef st).
    destruct (isEmpty (trim (customSkill st))) eqn:Hempty; cbn [negb andb];
      [left; split; [reflexivity | now left]|].
    destruct (arrayIncludes (selectedSkills st) (trim (customSkill st))) eqn:Hin;
      cbn [negb andb].
    - left. split; [reflexivity|]. right. left. now apply arrayIncludes_true_iff.
    - apply arrayIncludes_false_iff in Hin.
      destruct (Z.ltb_spec (arrLen (selectedSkills st)) 20) as [Hroom|Hfull].
      + right. repeat split; assumption.
      + left. split; [reflexivity|]. right. right. exact Hfull. }
  split; [|split; [|split]].
  - intros Hen Hnot.
    destruct Hcases as [[Hsame Hwhy]|(He & Hn & Hr & Hadd)].
    + exfalso. apply orb_false_iff in Hen as [H1 H2]. apply Z.leb_gt in H2.
      destruct Hwhy as [H|[H|H]]; [congruence | contradiction | lia].
    + rewrite Hadd. split; reflexivity.
  - intros Hor.
    destruct Hcases as [[Hsame _]|(He & Hn & Hr & Hadd)]; [exact Hsame|].
    exfalso. destruct Hor as [H|H]; [|contradiction].
    apply orb_true_iff in H as [H|H]; [congruence | apply Z.leb_le in H; lia].
  - destruct Hcases as [[Hsame _]|(He & Hn & Hr & Hadd)]; [now rewrite Hsame|].
    rewrite Hadd, (Hdef (setCustomSkill _ _)). reflexivity.
  - intros x.
    destruct Hcases as [[Hsame _]|(He & Hn & Hr & Hadd)]; [rewrite Hsame; tauto|].
    rewrite Hadd. cbn. rewrite List.in_app_iff. simpl.
    intros [H|[<-|[]]]; [now left|]. right. split; [|apply trim_idempotent].
    intros E. rewrite E in He. discriminate.
Qed.

Lemma addCustomSkill_effect_witness :
  selectedSkills
    (addCustomSkill (setCustomSkill "  Rust " (setSelectedSkills ["Python"] initialState)))
  = ["Python"; "Rust"].
Proof.
  apply (addCustomSkill_effect
           (setCustomSkill "  Rust " (setSelectedSkills ["Python"] initialState))).
  - reflexivity.
  - apply (bool_decide_unpack _). vm_compute. exact I.
Defined.

(** *** Benefits *)

Lemma toggleBenefit_keeps_invariant (benefit : string) (prev : list string) :
  benefitsInvariant prev -> benefitsInvariant (toggleBenefitUpdate benefit prev).
Proof.
  intros [Hnd Hlen]. unfold toggleBenefitUpdate, benefitsInvariant.
  change VALIDATION_RULES.benefits.maxItems with 15%Z in *.
  destruct (arrayIncludes prev benefit) eqn:Hin.
  - split; [now apply NoDup_bool_filter|].
    pose proof (arrLen_filter (fun b => negb (String.eqb b benefit)) prev). lia.
  - destruct (Z.ltb_spec (arrLen prev) 15) as [Hroom|Hfull]; [|now split].
    apply arrayIncludes_false_iff in Hin. split.
    + apply NoDup_app. split; [exact Hnd|]. split; [|apply NoDup_singleton].
      intros y Hy Hyx. apply list_elem_of_singleton in Hyx. subst y.
      apply Hin. now apply list_elem_of_In.
    + rewrite arrLen_app. change (arrLen [benefit]) with 1%Z. lia.
Qed.

Lemma addCustomBenefit_keeps_invariant (st : FormState) :
  benefitsInvariant (selectedBenefits st) ->
  benefitsInvariant (selectedBenefits (addCustomBenefit st)).
Proof.
  intros [Hnd Hlen]. unfold addCustomBenefit, benefitsInvariant.
  change VALIDATION_RULES.benefits.maxItems with 15%Z in *.
  destruct (isEmpty (trim (customBenefit st))); [now split|].
  destruct (arrayIncludes (selectedBenefits st) (trim (customBenefit st))) eqn:Hin;
    [now split|].
  destruct (Z.ltb_spec (arrLen (selectedBenefits st)) 15) as [Hroom|Hfull];
    [|now split].
  cbn. apply arrayIncludes_false_iff in Hin. split.
  - apply NoDup_app. split; [exact Hnd|]. split; [|apply NoDup_singleton].
    intros y Hy Hyx. apply list_elem_of_singleton in Hyx. subst y.
    apply Hin. now apply list_elem_of_In.
  - rewrite arrLen_app. change (arrLen [trim (customBenefit st)]) with 1%Z. lia.
Qed.

(** X5: toggleBenefit and addCustomBenefit keep the selected-benefits
    list free of duplicates and at most 15 long, provided it was so
    before; and they leave the selected skills alone. *)
Theorem selected_benefits_invariant_preserved (st : FormState) :
  benefitsInvariant (selectedBenefits st) ->
  (forall benefit,
     benefitsInvariant (selectedBenefits (toggleBenefit benefit st))
     /\ selectedSkills (toggleBenefit benefit st) = selectedSkills st)
  /\ benefitsInvariant (selectedBenefits (addCustomBenefit st))
  /\ selectedSkills (addCustomBenefit st) = selectedSkills st.
Proof.
  intros Hinv. split; [|split].
  - intros benefit. split; [|reflexivity].
    cbn. now apply toggleBenefit_keeps_invariant.
  - now apply addCustomBenefit_keeps_invariant.
  - unfold addCustomBenefit. now destruct (_ && _ && _).
Qed.

Lemma selected_benefits_invariant_preserved_witness :
  benefitsInvariant
    (selectedBenefits
       (toggleBenefit "Remote Work"
          (setSelectedBenefits ["Health Insurance"] initialState))).
Proof.
  apply (selected_benefits_invariant_preserved
           (setSelectedBenefits ["Health Insurance"] initialState)).
  split; [apply (bool_decide_unpack _); vm_compute; exact I|].
  vm_compute. intros H; discriminate.
Defined.

(** *** Submission *)

Lemma jobTitleError_none (title : string) :
  jobTitleError title = None ->
  trim title <> "" /\ (2 <= strLen title <= 200)%Z.
Proof.
  intros H. pose proof (jobTitleError_some_iff title) as Hiff.
  rewrite H in Hiff. split.
  - intros E. destruct (proj2 Hiff (or_introl E)); discriminate.
  - destruct (Z.lt_ge_cases (strLen title) 2) as [L|L].
    { destruct (proj2 Hiff (or_intror (or_introl L))); discriminate. }
    destruct (Z.lt_ge_cases 200 (strLen title)) as [G|G]; [|lia].
    destruct (proj2 Hiff (or_intror (or_intror G))); discriminate.
Qed.

(** X6: handleSubmit calls onPredict exactly when validateForm found no
    error.  The payload then carries the form's fields (job title, years,
    company location, company size, remote ratio and job description),
    the selected skills and benefits in place of the form data's own
    lists, and the experience level computed from the years; its job
    title is not blank and has 2 to 200 characters, its years are within
    0 to 50, it has at most 20 skills and 15 benefits and a description of
    at most 10000 characters. *)
Theorem handleSubmit_payload (st : FormState) :
  errors (fst (handleSubmit st)) = newErrors st
  /\ (snd (handleSubmit st) = None <-> newErrors st <> ∅)
  /\ (forall input, snd (handleSubmit st) = Some input ->
        inputJobTitle input = jobTitle (formData st)
        /\ inputYearsExperience input = yearsExperience (formData st)
        /\ inputExperienceLevel input
           = getExperienceLevelFromYears (inputYearsExperience input)
        /\ inputCompanyLocation input = companyLocation (formData st)
        /\ inputCompanySize input = companySize (formData st)
        /\ inputRemoteRatio input = remoteRatio (formData st)
        /\ inputRequiredSkills input = selectedSkills st
        /\ inputBenefits input = selectedBenefits st
        /\ inputJobDescription input = jobDescription (formData st)
        /\ trim (inputJobTitle input) <> ""
        /\ (2 <= strLen (inputJobTitle input) <= 200)%Z
        /\ (0 <= inputYearsExperience input <= 50)%Z
        /\ (arrLen (inputRequiredSkills input) <= 20)%Z
        /\ (arrLen (inputBenefits input) <= 15)%Z
        /\ (strLen (inputJobDescription input) <= 10000)%Z).
Proof.
  unfold handleSubmit, validateForm.
  destruct (bool_decide (size (newErrors st) = 0)) eqn:Hvalid; cbn [negb fst snd].
  - apply bool_decide_eq_true, map_size_empty_iff in Hvalid.
    split; [reflexivity|]. split; [split; [discriminate | congruence]|].
    intros input [= <-]. cbn.
    apply newErrors_empty_iff in Hvalid as (Ht & Hy & Hs & Hb & Hd).
    apply jobTitleError_none in Ht as [Ht1 Ht2].
    unfold yearsError in Hy. unfold skillsError in Hs. unfold benefitsError in Hb.
    unfold descriptionError in Hd.
    destruct (Z.ltb_spec (yearsExperience (formData st)) 0); [discriminate|].
    destruct (Z.ltb_spec 50 (yearsExperience (formData st))); [discriminate|].
    destruct (Z.ltb_spec 20 (arrLen (selectedSkills st))); [discriminate|].
    destruct (Z.ltb_spec 15 (arrLen (selectedBenefits st))); [discriminate|].
    destruct (Z.ltb_spec 10000 (strLen (jobDescription (formData st))));
      [discriminate|].
    repeat split; trivial; lia.
  - apply bool_decide_eq_false in Hvalid.
    split; [reflexivity|]. split; [|discriminate].
    split; [|reflexivity]. intros _ E. apply Hvalid. rewrite E. apply map_size_empty.
Qed.

Lemma handleSubmit_payload_witness :
  inputExperienceLevel
    (mkInput "Data Scientist" 4 MidLevel "United States" "Medium" 0 [] [] "")
  = getExperienceLevelFromYears 4
  /\ inputCompanyLocation
       (mkInput "Data Scientist" 4 MidLevel "United States" "Medium" 0 [] [] "")
     = companyLocation (formData (draftWithYears 4))
  /\ (2 <= strLen "Data Scientist" <= 200)%Z.
Proof.
  destruct (handleSubmit_payload (draftWithYears 4)) as (_ & _ & Hp).
  destruct (Hp (mkInput "Data Scientist" 4 MidLevel "United States" "Medium" 0 [] [] ""))
    as (_ & _ & Hlevel & Hlocation & _ & _ & _ & _ & _ & _ & Hlen & _).
  - vm_compute. reflexivity.
  - split; [exact Hlevel | split; [exact Hlocation | exact Hlen]].
Defined.

(** *** Every state the form reaches *)

Lemma clearError_cells (field : string) (st : FormState) :
  formData (clearError field st) = formData st
  /\ selectedSkills (clearError field st) = selectedSkills st
  /\ selectedBenefits (clearError field st) = selectedBenefits st.
Proof.
  unfold clearError. destruct (errors st !! field) as [m|]; [|easy].
  now destruct (isEmpty m).
Qed.

Lemma formStep_lists (st st' : FormState) :
  formStep st st' ->
  skillsStep st st'
  /\ (selectedBenefits st' = selectedBenefits st
      \/ (exists benefit, st' = toggleBenefit benefit st)
      \/ st' = addCustomBenefit st).
Proof.
  intros Hstep.
  assert (forall field s, selectedSkills (clearError field s) = selectedSkills s)
    as Hcs by (intros; apply clearError_cells).
  assert (forall field s, selectedBenefits (clearError field s) = selectedBenefits s)
    as Hcb by (intros; apply clearError_cells).
  destruct Hstep.
  - split; [apply step_otherCell | left]; unfold onJobTitleChange;
      [now rewrite Hcs | now rewrite Hcb].
  - split; [apply step_otherCell | left]; unfold onYearsChange;
      [now rewrite Hcs | now rewrite Hcb].
  - split; [apply step_otherCell | left]; unfold onJobDescriptionChange;
      [now rewrite Hcs | now rewrite Hcb].
  - split; [apply step_otherCell | left]; reflexivity.
  - split; [apply step_otherCell | left]; reflexivity.
  - split; [apply step_otherCell | left]; reflexivity.
  - split; [apply step_toggleSkill | now left].
  - split; [apply step_addCustomSkill|]. left. unfold addCustomSkill.
    now destruct (_ && _ && _).
  - split; [apply step_autoSelect|]. left. unfold autoSelectEffect.
    now destruct (_ && _ && _).
  - split; [apply step_addAllEssential | now left].
  - split; [apply step_removeAllRecommended | now left].
  - split; [now apply step_otherCell | right; left; eauto].
  - split; [|right; now right]. apply step_otherCell.
    unfold addCustomBenefit. now destruct (_ && _ && _).
  - split; [apply step_otherCell | left]; unfold handleSubmit, validateForm;
      now destruct (negb _).
Qed.

(** X7: in every state the form can reach from its initial state, the
    selected skills and the selected benefits have no duplicates and stay
    within 20 and 15 entries; so validateForm never reports an error for
    requiredSkills or benefits there. *)
Theorem reachable_lists_within_limits (st : FormState) :
  formReachable st ->
  skillsInvariant (selectedSkills st)
  /\ benefitsInvariant (selectedBenefits st)
  /\ newErrors st !! "requiredSkills" = None
  /\ newErrors st !! "benefits" = None.
Proof.
  intros Hreach.
  assert (skillsInvariant (selectedSkills st)
          /\ benefitsInvariant (selectedBenefits st)) as [Hs Hb].
  { induction Hreach as [|st st' _ [IHs IHb] Hstep].
    - split; (split; [apply NoDup_nil_2 | vm_compute; intros H; discriminate]).
    - apply formStep_lists in Hstep as [Hskills Hben]. split.
      + eapply skillsStep_keeps_invariant; eassumption.
      + destruct Hben as [-> | [[benefit ->] | ->]]; [exact IHb| |].
        * cbn. now apply toggleBenefit_keeps_invariant.
        * now apply addCustomBenefit_keeps_invariant. }
  split; [exact Hs|]. split; [exact Hb|].
  rewrite newErrors_requiredSkills, newErrors_benefits.
  unfold skillsError, benefitsError.
  destruct Hs as [_ Hs]. destruct Hb as [_ Hb].
  change VALIDATION_RULES.requiredSkills.maxItems with 20%Z in Hs.
  change VALIDATION_RULES.benefits.maxItems with 15%Z in Hb.
  destruct (Z.ltb_spec 20 (arrLen (selectedSkills st))); [lia|].
  destruct (Z.ltb_spec 15 (arrLen (selectedBenefits st))); [lia|].
  split; reflexivity.
Qed.

Lemma reachable_lists_within_limits_witness :
  newErrors (toggleSkill "SQL" initialState) !! "requiredSkills" = None.
Proof.
  apply (reachable_lists_within_limits (toggleSkill "SQL" initialState)).
  eapply form_next; [apply form_initial | apply form_toggleSkill].
Defined.

(** *** Editing a field hides its error *)

Lemma renderError_clearError (field other : string) (st : FormState) :
  renderError other (clearError field st)
  = if String.eqb field other then None else renderError other st.
Proof.
  unfold renderError, clearError.
  destruct (String.eqb_spec field other) as [->|Hne].
  - destruct (errors st !! other) as [m|] eqn:E; [|now rewrite E].
    destruct (isEmpty m) eqn:Hm; [now rewrite E, Hm|].
    cbn. now rewrite lookup_insert_eq.
  - destruct (errors st !! field) as [m|] eqn:E; [|reflexivity].
    destruct (isEmpty m); [reflexivity|].
    cbn. now rewrite lookup_insert_ne.
Qed.

Lemma autoSelectEffect_cells (st : FormState) :
  formData (autoSelectEffect st) = formData st
  /\ selectedBenefits (autoSelectEffect st) = selectedBenefits st
  /\ errors (autoSelectEffect st) = errors st.
Proof.
  unfold autoSelectEffect. now destruct (_ && _ && _).
Qed.

Lemma typeJobTitle_cells (value : string) (st : FormState) :
  formData (typeJobTitle value st) = formData (onJobTitleChange value st)
  /\ selectedBenefits (typeJobTitle value st) = selectedBenefits st
  /\ errors (typeJobTitle value st) = errors (onJobTitleChange value st).
Proof.
  unfold typeJobTitle.
  assert (selectedBenefits (onJobTitleChange value st) = selectedBenefits st) as Hb
      by (unfold onJobTitleChange;
          now rewrite (proj2 (proj2 (clearError_cells _ _)))).
  destruct (String.eqb value (jobTitle (formData st))); [easy|].
  destruct (autoSelectEffect_cells (onJobTitleChange value st)) as (-> & -> & ->).
  easy.
Qed.

(** X8: typing in the job title (the handler, then the auto-select effect
    if the title changed) hides the job-title error, whatever is typed,
    stores the new title, and leaves the messages of the other fields and
    the selected benefits as they are.  A selection of skills that is not
    empty stays as it is; an empty one becomes the first four recommended
    core skills of the new title if the title changed, is not empty and
    has recommended core skills, and stays empty otherwise.  After a
    rejected submission the message stays away until the next submission,
    even if the new title is still invalid. *)
Theorem typeJobTitle_effect (value : string) (st : FormState) :
  renderError "jobTitle" (typeJobTitle value st) = None
  /\ (forall field, field <> "jobTitle" ->
        renderError field (typeJobTitle value st) = renderError field st)
  /\ jobTitle (formData (typeJobTitle value st)) = value
  /\ selectedBenefits (typeJobTitle value st) = selectedBenefits st
  /\ (selectedSkills st <> [] ->
      selectedSkills (typeJobTitle value st) = selectedSkills st)
  /\ (selectedSkills st = [] ->
      selectedSkills (typeJobTitle value st)
      = if String.eqb value (jobTitle (formData st)) || isEmpty value then []
        else firstn 4 (core (getRecommendedSkills value)))
  /\ renderError "jobTitle" (typeJobTitle value (fst (handleSubmit st))) = None
  /\ renderError "jobTitle" (fst (handleSubmit (typeJobTitle "" st)))
     = Some "Job title is required".
Proof.
  assert (forall v s, renderError "jobTitle" (typeJobTitle v s) = None) as Hhide.
  { intros v s. unfold renderError.
    rewrite (proj2 (proj2 (typeJobTitle_cells v s))).
    change (renderError "jobTitle" (onJobTitleChange v s) = None).
    unfold onJobTitleChange. now rewrite renderError_clearError, String.eqb_refl. }
  assert (forall v s, jobTitle (formData (typeJobTitle v s)) = v) as Htitle.
  { intros v s. rewrite (proj1 (typeJobTitle_cells v s)).
    unfold onJobTitleChange. now rewrite (proj1 (clearError_cells _ _)). }
  assert (forall v s, selectedSkills (onJobTitleChange v s) = selectedSkills s) as Hsk.
  { intros v s. unfold onJobTitleChange.
    now rewrite (proj1 (proj2 (clearError_cells _ _))). }
  assert (forall v s, jobTitle (formData (onJobTitleChange v s)) = v) as Htitle'.
  { intros v s. unfold onJobTitleChange. now rewrite (proj1 (clearError_cells _ _)). }
  split; [apply Hhide|]. split.
  { intros field Hne. unfold renderError.
    rewrite (proj2 (proj2 (typeJobTitle_cells value st))).
    change (renderError field (onJobTitleChange value st) = renderError field st).
    unfold onJobTitleChange. rewrite renderError_clearError.
    destruct (String.eqb_spec "jobTitle" field); [congruence | reflexivity]. }
  split; [apply Htitle|].
  split; [exact (proj1 (proj2 (typeJobTitle_cells value st)))|].
  split.
  { intros Hne. unfold typeJobTitle.
    destruct (String.eqb value (jobTitle (formData st))); [apply Hsk|].
    unfold autoSelectEffect. rewrite Hsk.
    destruct (selectedSkills st) as [|x l] eqn:E; [congruence|].
    cbn [arrLen List.length]. rewrite andb_false_r.
    cbn [andb]. rewrite Hsk. exact E. }
  split.
  { intros Hempty. unfold typeJobTitle.
    destruct (String.eqb value (jobTitle (formData st))); cbn [orb];
      [now rewrite Hsk|].
    unfold autoSelectEffect, recommendedSkills. rewrite Hsk, Htitle', Hempty.
    change (arrLen [] =? 0)%Z with true.
    destruct (isEmpty value); cbn [negb andb]; [now rewrite Hsk|].
    destruct (core (getRecommendedSkills value)) as [|c cs] eqn:Hcore.
    - change (0 <? arrLen [])%Z with false. cbv iota. now rewrite Hsk.
    - assert ((0 <? arrLen (c :: cs))%Z = true) as ->
          by (apply Z.ltb_lt; unfold arrLen; simpl List.length; lia).
      reflexivity. }
  split; [apply Hhide|].
  unfold renderError.
  assert (errors (fst (handleSubmit (typeJobTitle "" st))) !! "jobTitle"
          = Some "Job title is required") as ->; [|reflexivity].
  unfold handleSubmit, validateForm.
  match goal with
  | |- errors (fst (if ?c then _ else _)) !! _ = _ => destruct c
  end; cbn [fst errors setErrors];
    rewrite newErrors_jobTitle, Htitle; reflexivity.
Qed.

(** X9: the auto-select effect never touches a selection that is not
    empty.  On an empty selection, with a job title that has recommended
    core skills, it selects the first four of them (all of them if there
    are fewer), which leaves the list not empty; so running it again
    changes nothing. *)
Theorem autoSelect_only_when_empty (st : FormState) :
  (selectedSkills st <> [] -> autoSelectEffect st = st)
  /\ (selectedSkills st = [] ->
      isEmpty (jobTitle (formData st)) = false ->
      core (recommendedSkills st) <> [] ->
      selectedSkills (autoSelectEffect st) = firstn 4 (core (recommendedSkills st))
      /\ selectedSkills (autoSelectEffect st) <> []
      /\ (arrLen (selectedSkills (autoSelectEffect st)) <= 4)%Z
      /\ (forall s, In s (selectedSkills (autoSelectEffect st)) ->
            In s (core (recommendedSkills st))))
  /\ autoSelectEffect (autoSelectEffect st) = autoSelectEffect st.
Proof.
  assert (forall s : FormState, selectedSkills s <> [] -> autoSelectEffect s = s) as Hkeep.
  { intros s Hne. unfold autoSelectEffect.
    destruct (selectedSkills s) as [|x l] eqn:E; [congruence|].
    cbn [arrLen List.length]. rewrite andb_false_r. reflexivity. }
  split; [apply Hkeep|]. split.
  - intros Hsel Htitle Hcore. unfold autoSelectEffect.
    assert ((0 <? arrLen (core (recommendedSkills st)))%Z = true) as Hpos.
    { apply Z.ltb_lt. unfold arrLen.
      destruct (core (recommendedSkills st)); [congruence | simpl List.length; lia]. }
    rewrite Hsel, Htitle, Hpos. change (arrLen []) with 0%Z.
    cbn [negb andb Z.eqb selectedSkills setSelectedSkills].
    split; [reflexivity|]. split.
    { destruct (core (recommendedSkills st)); [congruence | discriminate]. }
    split.
    + unfold arrLen.
      pose proof (List.firstn_le_length 4 (core (recommendedSkills st))). lia.
    + intros s Hs. apply list_elem_of_In.
      apply list_elem_of_In in Hs.
      eapply elem_of_sublist; [exact Hs | apply sublist_take].
  - assert (autoSelectEffect st = st
            \/ (autoSelectEffect st
                = setSelectedSkills (firstn 4 (core (recommendedSkills st))) st
                /\ core (recommendedSkills st) <> [])) as [H | [H Hcore]].
    { unfold autoSelectEffect.
      destruct (_ && _ && _) eqn:Hguard; [right | now left].
      split; [reflexivity|].
      apply andb_true_iff in Hguard as [_ Hcore]. apply Z.ltb_lt in Hcore.
      revert Hcore. destruct (core (recommendedSkills st));
        [intros Hc; vm_compute in Hc; discriminate Hc | discriminate]. }
    + now rewrite !H.
    + rewrite H. apply Hkeep. cbn [selectedSkills setSelectedSkills].
      destruct (core (recommendedSkills st)); [congruence | discriminate].
Qed.

Lemma autoSelect_only_when_empty_witness :
  selectedSkills (autoSelectEffect (draftWithYears 4))
  = ["Python"; "Machine Learning"; "Statistics"; "SQL"].
Proof.
  destruct (autoSelect_only_when_empty (draftWithYears 4)) as (_ & H & _).
  apply H; [reflexivity | reflexivity | discriminate].
Defined.

(** X10: Add All Essential is all or nothing: it keeps every selected
    skill in place and, if the selection with all the missing core skills
    stays within 20 entries, appends them all, so that every recommended
    core skill is selected; otherwise it changes nothing.  Remove All
    Recommended keeps exactly the selected skills that are not among the
    recommended core, advanced or tool skills. *)
Theorem quick_actions_effect (st : FormState) :
  let missing :=
    List.filter (fun s => negb (arrayIncludes (selectedSkills st) s))
                (core (recommendedSkills st)) in
  ((arrLen (selectedSkills st) + arrLen missing <= 20)%Z ->
     selectedSkills (addAllEssential st) = (selectedSkills st ++ missing)%list
     /\ (forall s, In s (core (recommendedSkills st)) ->
           In s (selectedSkills (addAllEssential st))))
  /\ ((20 < arrLen (selectedSkills st) + arrLen missing)%Z ->
      selectedSkills (addAllEssential st) = selectedSkills st)
  /\ (forall s, In s (selectedSkills (removeAllRecommended st)) <->
        In s (selectedSkills st)
        /\ ~ In s (core (recommendedSkills st))
        /\ ~ In s (advanced (recommendedSkills st))
        /\ ~ In s (tools (recommendedSkills st))).
Proof.
  cbv zeta. unfold addAllEssential, removeAllRecommended.
  cbn [selectedSkills setSelectedSkills].
  change VALIDATION_RULES.requiredSkills.maxItems with 20%Z.
  set (sel := selectedSkills st). set (cs := core (recommendedSkills st)).
  set (missing := List.filter (fun s => negb (arrayIncludes sel s)) cs).
  split; [|split].
  - intros Hroom. apply Z.leb_le in Hroom. rewrite Hroom.
    assert (List.filter (fun skill => negb (arrayIncludes sel skill) && true) cs
            = missing) as ->.
    { apply List.filter_ext. intros a. apply andb_true_r. }
    split; [reflexivity|].
    intros s Hs. rewrite List.in_app_iff.
    destruct (arrayIncludes sel s) eqn:Hin.
    + left. now apply arrayIncludes_true_iff.
    + right. apply List.filter_In. now rewrite Hin.
  - intros Hfull. apply Z.leb_gt in Hfull. rewrite Hfull.
    assert (List.filter (fun skill => negb (arrayIncludes sel skill) && false) cs
            = []) as ->.
    { clear. induction cs as [|a cs IH]; simpl; [reflexivity|].
      now rewrite andb_false_r. }
    apply app_nil_r.
  - intros s. rewrite List.filter_In, !andb_true_iff, !negb_true_iff,
      !arrayIncludes_false_iff. tauto.
Qed.

Lemma quick_actions_effect_witness :
  selectedSkills (addAllEssential (draftWithYears 4))
  = ["Python"; "Machine Learning"; "Statistics"; "SQL"; "Pandas"; "NumPy"].
Proof.
  destruct (quick_actions_effect (draftWithYears 4)) as (H & _).
  apply H. vm_compute. intros E; discriminate E.
Defined.

End FormEvents.

(** ** The recommender, the tiers and the type guards *)

Module NormalizerMore.
Import JS Types PredictionForm StringFacts NormalizerFacts SkillsFacts.

(** *** Letter case *)

Lemma lowerChar_idempotent (c : ascii) : lowerChar (lowerChar c) = lowerChar c.
Proof. destruct c as [[] [] [] [] [] [] [] []]; reflexivity. Qed.

Lemma toLowerCase_idempotent (s : string) :
  toLowerCase (toLowerCase s) = toLowerCase s.
Proof.
  induction s as [|c s IH]; [reflexivity|]. simpl.
  now rewrite lowerChar_idempotent, IH.
Qed.

Lemma toLowerCase_app (a b : string) :
  toLowerCase (a +:+ b) = toLowerCase a +:+ toLowerCase b.
Proof. induction a as [|c a IH]; [reflexivity|]. simpl. now rewrite IH. Qed.

(** X11: the recommendation does not depend on letter case: two titles
    with the same lower-case form get the same skills, and so does a title
    and its lower-case form. *)
Theorem recommendation_ignores_case (title1 title2 : string) :
  toLowerCase title1 = toLowerCase title2 ->
  getRecommendedSkills title1 = getRecommendedSkills title2
  /\ getRecommendedSkills (toLowerCase title1) = getRecommendedSkills title1.
Proof.
  assert (forall a b, toLowerCase a = toLowerCase b ->
                      getRecommendedSkills a = getRecommendedSkills b) as H.
  { intros a b E. unfold getRecommendedSkills.
    rewrite <- (toLowerCase_empty a), <- (toLowerCase_empty b), E. reflexivity. }
  intros E. split; [now apply H|].
  apply H, toLowerCase_idempotent.
Qed.

Lemma recommendation_ignores_case_witness :
  getRecommendedSkills "SENIOR ML ENGINEER" = getRecommendedSkills "senior ml engineer".
Proof.
  apply (recommendation_ignores_case "SENIOR ML ENGINEER" "senior ml engineer").
  reflexivity.
Defined.

(** *** Titles that name an engineer *)

Lemma taxonomy_rows_nonempty :
  Forall (fun skills => core skills <> [] /\ advanced skills <> [] /\ tools skills <> [])
         (List.map snd ROLE_SKILL_MAPPING).
Proof. repeat constructor; discriminate. Qed.

(** X12: what the recommender returns is one of the ten skill sets of the
    taxonomy, as it stands there, or the three empty sequences; and a
    title that contains "engineer", in any letter case, never gets the
    empty ones. *)
Theorem recommendation_from_taxonomy (jobTitle : string) :
  (getRecommendedSkills jobTitle = noSkills
   \/ In (getRecommendedSkills jobTitle) (List.map snd ROLE_SKILL_MAPPING))
  /\ (includes (toLowerCase jobTitle) "engineer" = true ->
      In (getRecommendedSkills jobTitle) (List.map snd ROLE_SKILL_MAPPING)
      /\ core (getRecommendedSkills jobTitle) <> []
      /\ advanced (getRecommendedSkills jobTitle) <> []
      /\ tools (getRecommendedSkills jobTitle) <> []).
Proof.
  split; [apply getRecommendedSkills_in_table|].
  intros Heng.
  assert (In (getRecommendedSkills jobTitle) (List.map snd ROLE_SKILL_MAPPING)) as Hin.
  { unfold getRecommendedSkills.
    destruct (isEmpty jobTitle) eqn:He.
    { apply isEmpty_true in He. subst jobTitle. discriminate Heng. }
    destruct (exactMatch _ _) eqn:Hm; [eapply exactMatch_in_table, Hm|].
    unfold partialMatch. rewrite Heng.
    repeat match goal with
           | |- context [if ?c then _ else _] =>
               destruct c; [vm_compute; tauto|]
           end.
    vm_compute; tauto. }
  split; [exact Hin|].
  pose proof taxonomy_rows_nonempty as H. rewrite Forall_forall in H.
  apply H. now apply list_elem_of_In.
Qed.

Lemma recommendation_from_taxonomy_witness :
  core (getRecommendedSkills "Build Engineer") <> [].
Proof.
  apply (recommendation_from_taxonomy "Build Engineer"). reflexivity.
Defined.

(** *** Experience tiers *)

Lemma getExperienceLevelFromYears_cases (years : Z) :
  ((years <= 2)%Z /\ getExperienceLevelFromYears years = EntryLevel)
  \/ ((3 <= years <= 5)%Z /\ getExperienceLevelFromYears years = MidLevel)
  \/ ((6 <= years <= 10)%Z /\ getExperienceLevelFromYears years = SeniorLevel)
  \/ ((11 <= years)%Z /\ getExperienceLevelFromYears years = Executive).
Proof.
  unfold getExperienceLevelFromYears.
  destruct (Z.leb_spec years 2); [left; split; [lia | reflexivity]|].
  destruct (Z.leb_spec years 5); [right; left; split; [lia | reflexivity]|].
  destruct (Z.leb_spec years 10);
    [right; right; left; split; [lia | reflexivity]|].
  right; right; right. split; [lia | reflexivity].
Qed.

(** X13: outside 0 to 50 the tier is still defined: every negative value
    is Entry Level, every value above 50 is Executive.  The tier never
    goes down when the years go up; its text passes isValidExperienceLevel
    and has a description. *)
Theorem experience_level_total_monotone (years more : Z) :
  ((years < 0)%Z -> getExperienceLevelFromYears years = EntryLevel)
  /\ ((50 < years)%Z -> getExperienceLevelFromYears years = Executive)
  /\ ((years <= more)%Z ->
      (levelRank (getExperienceLevelFromYears years)
       <= levelRank (getExperienceLevelFromYears more))%Z)
  /\ isValidExperienceLevel
       (experienceLevelText (getExperienceLevelFromYears years)) = true
  /\ getExperienceLevelDescription
       (experienceLevelText (getExperienceLevelFromYears years)) <> "".
Proof.
  destruct (getExperienceLevelFromYears_cases years) as [[H ->]|[[H ->]|[[H ->]|[H ->]]]];
    destruct (getExperienceLevelFromYears_cases more)
      as [[H' ->]|[[H' ->]|[[H' ->]|[H' ->]]]];
    repeat split; intros; try reflexivity; try discriminate; cbn; lia.
Qed.

Lemma experience_level_total_monotone_witness :
  getExperienceLevelFromYears (-3) = EntryLevel
  /\ getExperienceLevelFromYears 75 = Executive.
Proof.
  split.
  - apply (experience_level_total_monotone (-3) 0). lia.
  - apply (experience_level_total_monotone 75 75). lia.
Defined.

(** *** Type guards *)

(** X14: isValidExperienceLevel accepts exactly the texts of the four
    tiers, and isValidCompanySize and the location list accept every
    option the form offers; isValidMarketPosition accepts the four ranked
    positions only, not "Unknown". *)
Theorem type_guards_accept (text : string) :
  (isValidExperienceLevel text = true <->
   exists level, experienceLevelText level = text)
  /\ (isValidExperienceLevel text = true <-> In text EXPERIENCE_LEVELS)
  /\ (isValidCompanySize text = true <-> In text COMPANY_SIZES)
  /\ (In text FORM_OPTIONS.companySizes -> isValidCompanySize text = true)
  /\ (In text FORM_OPTIONS.locations <-> In text SUPPORTED_LOCATIONS)
  /\ (isValidMarketPosition text = true <->
      In text ["Below Average"; "Average"; "Above Average"; "Top Tier"])
  /\ isValidMarketPosition "Unknown" = false
  /\ isValidCompanySize (companySize initialFormData) = true
  /\ In (companyLocation initialFormData) SUPPORTED_LOCATIONS.
Proof.
  unfold isValidExperienceLevel, isValidCompanySize, isValidMarketPosition.
  rewrite !arrayIncludes_true_iff.
  split.
  { split.
    - simpl. intros [<-|[<-|[<-|[<-|[]]]]];
        [exists EntryLevel | exists MidLevel | exists SeniorLevel | exists Executive];
        reflexivity.
    - intros [[] <-]; simpl; tauto. }
  repeat split; try tauto; try reflexivity.
  all: simpl; tauto.
Qed.

Lemma type_guards_accept_witness : isValidCompanySize "Enterprise" = true.
Proof.
  destruct (type_guards_accept "Enterprise") as (_ & _ & _ & H & _).
  apply H. vm_compute. tauto.
Defined.

End NormalizerMore.

(** ** What the presenter displays *)

Module PresenterMore.
Import JS Types PredictionResults PresenterFacts.
Local Open Scope float_scope.

(** *** What the margin line shows *)

(** X15: the line under the predicted salary shows the interval exactly
    when both bounds are present and neither zero nor NaN.  The margin of
    error it then shows is round((upper - lower) / 2) if the predicted
    salary is usable, and 0 if the predicted salary is absent, zero or
    NaN; otherwise the line shows the estimate round(salary * 0.2), and
    the precision is the default 85.  The 30% of the default range is
    never shown as the margin. *)
Theorem confidence_line_cases (r : PredictionResult) :
  match confidenceLine r with
  | RangeLine l u m =>
      lower (confidenceInterval' r) = Some l
      /\ upper (confidenceInterval' r) = Some u
      /\ truthy l = true /\ truthy u = true
      /\ m = displayedMargin r
      /\ m = (if truthy (predictedSalary' r) then Math_round ((u - l) / 2) else 0)
  | EstimatedLine c =>
      c = Math_round (predictedSalary' r * 0.2)
      /\ (absentOrZero (lower (confidenceInterval' r)) = true
          \/ absentOrZero (upper (confidenceInterval' r)) = true
          \/ (exists v, lower (confidenceInterval' r) = Some v /\ is_nan v = true)
          \/ (exists v, upper (confidenceInterval' r) = Some v /\ is_nan v = true))
      /\ percentage (getPredictionPrecision r) = 85
      /\ displayedMargin r = 0
  end.
Proof.
  unfold confidenceLine, displayedMargin, getPredictionPrecision.
  destruct (lower (confidenceInterval' r)) as [l|] eqn:Hl;
    destruct (upper (confidenceInterval' r)) as [u|] eqn:Hu;
    cbn [absentOrZero];
    try (repeat split; tauto).
  destruct (truthy l) eqn:Tl; destruct (truthy u) eqn:Tu; cbn [andb negb orb].
  - repeat split; trivial.
    destruct (truthy (predictedSalary' r)) eqn:Tp; cbn [negb orb]; [|reflexivity].
    assert ((predictedSalary' r =? 0) = false) as ->; [|reflexivity].
    unfold truthy in Tp. apply negb_true_iff, orb_false_iff in Tp. apply Tp.
  - repeat split. unfold truthy in Tu.
    apply negb_false_iff, orb_true_iff in Tu as [Tu|Tu]; eauto 6.
  - repeat split. unfold truthy in Tl.
    apply negb_false_iff, orb_true_iff in Tl as [Tl|Tl]; eauto 6.
  - repeat split. unfold truthy in Tl.
    apply negb_false_iff, orb_true_iff in Tl as [Tl|Tl]; eauto 6.
Qed.

(** *** Bounds of the precision *)

Lemma SFltb_false_leb (a b : spec_float) :
  a <> S754_nan -> b <> S754_nan -> SFltb a b = false -> SFleb b a = true.
Proof.
  intros Ha Hb. unfold SFltb, SFleb, SFcompare.
  destruct a as [sa|sa| |sa ma ea]; destruct b as [sb|sb| |sb mb eb];
    try congruence; try (destruct sa; congruence); try (destruct sb; congruence);
    try (destruct sa, sb; congruence).
  change (PosDef.Pos.compare_cont Eq mb ma) with (Pos.compare mb ma).
  change (PosDef.Pos.compare_cont Eq ma mb) with (Pos.compare ma mb).
  rewrite (Z.compare_antisym ea eb), (Pos.compare_antisym ma mb).
  destruct sa, sb; try congruence;
    destruct (ea ?= eb)%Z; cbn [CompOpp]; try congruence;
    destruct (ma ?= mb)%positive; cbn [CompOpp]; congruence.
Qed.

Lemma not_nan_Prim2SF (x : float) :
  PrimFloat.is_nan x = false -> Prim2SF x <> S754_nan.
Proof.
  unfold PrimFloat.is_nan. rewrite FloatAxioms.eqb_spec. intros H E.
  rewrite E in H. discriminate.
Qed.

Lemma ltb_false_leb (x y : float) :
  PrimFloat.is_nan x = false -> PrimFloat.is_nan y = false ->
  (x <? y) = false -> (y <=? x) = true.
Proof.
  intros Hx Hy. rewrite FloatAxioms.ltb_spec, FloatAxioms.leb_spec.
  apply SFltb_false_leb; now apply not_nan_Prim2SF.
Qed.

Lemma clamp_within (x : float) :
  (PrimFloat.is_nan x = true -> clamp x 60 95 = x)
  /\ (PrimFloat.is_nan x = false ->
      (60 <=? clamp x 60 95) = true /\ (clamp x 60 95 <=? 95) = true).
Proof.
  unfold clamp. split.
  - intros Hnan.
    destruct (nan_not_below x 60 Hnan) as [-> _].
    destruct (nan_not_below x 95 Hnan) as [_ ->]. reflexivity.
  - intros Hnan.
    destruct (x <? 60) eqn:H60; [split; reflexivity|].
    destruct (95 <? x) eqn:H95; [split; reflexivity|].
    split; apply ltb_false_leb; trivial.
Qed.

(** X16: for every prediction result the precision percentage is a number
    from 60 to 95, unless the rounded value it is clamped from is NaN, in
    which case it is that NaN; with the default it is 85. *)
Theorem precision_within_bounds (r : PredictionResult) :
  let p := percentage (getPredictionPrecision r) in
  (PrimFloat.is_nan p = false -> (60 <=? p) = true /\ (p <=? 95) = true)
  /\ (PrimFloat.is_nan p = true ->
      exists lo up,
        lower (confidenceInterval' r) = Some lo
        /\ upper (confidenceInterval' r) = Some up
        /\ PrimFloat.is_nan
             (Math_round ((1 - (up - lo) / predictedSalary' r) * 100)) = true).
Proof.
  cbv zeta. unfold getPredictionPrecision.
  destruct (upper (confidenceInterval' r)) as [u|];
    [|split; [split; reflexivity | discriminate]].
  destruct (lower (confidenceInterval' r)) as [l|];
    [|split; [split; reflexivity | discriminate]].
  destruct (_ || _ || _ || _); [split; [split; reflexivity | discriminate]|].
  cbn [percentage]. rewrite max_min_is_clamp.
  set (x := Math_round ((1 - (u - l) / predictedSalary' r) * 100)).
  destruct (clamp_within x) as [Hnan Hin].
  destruct (PrimFloat.is_nan x) eqn:Hx.
  - rewrite (Hnan eq_refl). split; [congruence | eauto].
  - split; [intros _; now apply Hin|].
    intros Hc. exfalso.
    destruct (Hin eq_refl) as [H1 _].
    destruct (nan_not_below _ 60 Hc) as [_ H2].
    rewrite FloatAxioms.leb_spec in H1. apply is_nan_Prim2SF in Hc.
    rewrite Hc in H1. vm_compute in H1. discriminate.
Qed.

Lemma precision_within_bounds_witness :
  (60 <=? percentage (getPredictionPrecision exampleResult)) = true
  /\ (percentage (getPredictionPrecision exampleResult) <=? 95) = true.
Proof.
  apply (precision_within_bounds exampleResult). reflexivity.
Defined.

End PresenterMore.

(** ** The API route *)

Module RouteMore.
Import JS PredictRoute.

Lemma jsonThrows_status (b : JSON) (s : Z) :
  jsonThrows (Some b) s = false <-> (200 <= s <= 599)%Z /\ nullBodyStatus s = false.
Proof.
  unfold jsonThrows. rewrite orb_false_iff, negb_false_iff, andb_true_iff.
  rewrite Z.leb_le, Z.leb_le. tauto.
Qed.

Lemma nullBodyStatus_not_ok (s : Z) :
  (300 <= s)%Z -> nullBodyStatus s = false <-> s <> 304%Z.
Proof.
  intros Hs. unfold nullBodyStatus.
  destruct (Z.eqb_spec s 101); [lia|]. destruct (Z.eqb_spec s 103); [lia|].
  destruct (Z.eqb_spec s 204); [lia|]. destruct (Z.eqb_spec s 205); [lia|].
  destruct (Z.eqb_spec s 304); cbn; split; congruence.
Qed.

Lemma not_ok_status (response : Response) :
  ok response = false -> (status response < 200 \/ 300 <= status response)%Z.
Proof.
  unfold ok. rewrite andb_false_iff, !Z.leb_gt. lia.
Qed.

(** A response that is not ok can be answered with its own status exactly
    when the status is from 300 to 599 and is not 304. *)
Lemma forwardable_status (response : Response) (b : JSON) :
  ok response = false ->
  jsonThrows (Some b) (status response) = false
  <-> (300 <= status response <= 599)%Z /\ status response <> 304%Z.
Proof.
  intros Hok. apply not_ok_status in Hok. rewrite jsonThrows_status. split.
  - intros [Hr Hn]. assert (300 <= status response)%Z as H3 by lia.
    split; [lia|]. now apply nullBodyStatus_not_ok.
  - intros [Hr Hn]. split; [lia|]. apply nullBodyStatus_not_ok; [lia | exact Hn].
Qed.

(** X17: POST always answers with a JSON body.  It answers with a status
    other than 200 only to pass on the status of a backend response that
    was not ok, whose body parsed to JSON other than null and whose status
    is from 300 to 599 and not 304.  It answers with the fallback, status
    200, whenever the request body cannot be read, the fetch throws, the
    body of the backend response is not JSON or is null, whatever the
    status of that response, the response is not ok with a status that a
    response with a body cannot carry (outside 200-599, or 304), or the
    response is ok and its body has no data property; GET answers 200 in
    every case. *)
Theorem route_status (request : RequestBody) (fetch : JSON -> FetchResult)
        (fetched : FetchResult) :
  (responseStatus (POST request fetch) <> 200%Z ->
   exists input response parsed,
     request = BodyResolves input
     /\ fetch input = FetchResolves response
     /\ ok response = false
     /\ bodyJson response = inr parsed /\ parsed <> JNull
     /\ (300 <= status response <= 599)%Z /\ status response <> 304%Z
     /\ responseStatus (POST request fetch) = status response)
  /\ ((exists message, request = BodyRejects message) ->
      POST request fetch = NextResponse_json (Some mockResult))
  /\ (forall input message,
        request = BodyResolves input -> fetch input = FetchRejects message ->
        POST request fetch = NextResponse_json (Some mockResult))
  /\ (forall input response,
        request = BodyResolves input -> fetch input = FetchResolves response ->
        (exists message, bodyJson response = inl message)
        \/ bodyJson response = inr JNull ->
        POST request fetch = NextResponse_json (Some mockResult))
  /\ (forall input response,
        request = BodyResolves input -> fetch input = FetchResolves response ->
        ok response = false ->
        (status response < 200 \/ 599 < status response \/ status response = 304)%Z ->
        POST request fetch = NextResponse_json (Some mockResult))
  /\ (forall input response result,
        request = BodyResolves input -> fetch input = FetchResolves response ->
        ok response = true -> bodyJson response = inr result ->
        prop "data" result = None ->
        POST request fetch = NextResponse_json (Some mockResult))
  /\ body (POST request fetch) <> None
  /\ responseStatus (GET fetched) = 200%Z.
Proof.
  split; [|split; [|split; [|split; [|split; [|split; [|split]]]]]].
  - unfold POST. destruct request as [m|input]; [intros H; now elim H|].
    destruct (fetch input) as [m|response] eqn:Hf; [intros H; now elim H|].
    destruct (ok response) eqn:Hok; cbn [negb].
    + destruct (bodyJson response) as [m|[]]; try (intros H; now elim H);
        cbv zeta; destruct (jsonThrows _ _); intros H; now elim H.
    + destruct (bodyJson response) as [m|parsed] eqn:Hb; [intros H; now elim H|].
      intros H. exists input, response, parsed.
      destruct parsed; try (now elim H); cbv zeta in H |- *;
        match goal with
        | H : context [jsonThrows (Some ?b) _] |- _ =>
            destruct (jsonThrows (Some b) (status response)) eqn:Ht;
            [now elim H|];
            apply (forwardable_status response b Hok) in Ht as [Hr Hn]
        end;
        repeat split; trivial; try discriminate; lia.
  - intros [message ->]. reflexivity.
  - intros input message -> Hf. unfold POST. now rewrite Hf.
  - intros input response -> Hf Hb. unfold POST. rewrite Hf.
    destruct Hb as [[message ->] | ->]; now destruct (negb (ok response)).
  - intros input response -> Hf Hok Hstatus. unfold POST. rewrite Hf, Hok.
    cbn [negb]. destruct (bodyJson response) as [m|parsed]; [reflexivity|].
    destruct parsed; try reflexivity; cbv zeta;
      match goal with
      | |- context [jsonThrows (Some ?b) _] =>
          destruct (jsonThrows (Some b) (status response)) eqn:Ht;
          [reflexivity|];
          apply (forwardable_status response b Hok) in Ht as [Hr Hn]; lia
      end.
  - intros input response result -> Hf Hok Hb Hdata. unfold POST.
    rewrite Hf, Hok, Hb, Hdata. cbn [negb jsonThrows].
    now destruct result.
  - unfold POST. destruct request as [m|input]; [discriminate|].
    destruct (fetch input) as [m|response]; [discriminate|].
    destruct (negb (ok response)).
    + destruct (bodyJson response) as [m|[]]; try discriminate;
        cbv zeta; destruct (jsonThrows _ _); discriminate.
    + destruct (bodyJson response) as [m|result]; [discriminate|].
      destruct result; try discriminate;
        destruct (prop "data" _) eqn:Hd; cbn [jsonThrows];
        try discriminate; destruct (negb _ || _); try discriminate;
        cbn [NextResponse_json body]; congruence.
  - unfold GET. destruct fetched as [m|response]; [reflexivity|].
    destruct (bodyJson response) as [m|[]]; reflexivity.
Qed.

Lemma route_status_witness :
  POST (BodyRejects "Unexpected end of JSON input") (fun _ => FetchRejects "")
  = NextResponse_json (Some mockResult).
Proof.
  apply (route_status (BodyRejects "Unexpected end of JSON input")
                      (fun _ => FetchRejects "") (FetchRejects "")).
  eexists. reflexivity.
Defined.

(** X18: when the backend answers with a status that is not ok and a JSON
    object, POST answers with the same status, if the status is from 300
    to 599 and not 304, and a body made of the object's error and message
    properties, where an absent, null or empty one is replaced by
    "Prediction failed" and "Unknown error occurred".  For any other
    status that is not ok, building the answer throws and POST answers
    with the fallback and status 200. *)
Theorem POST_forwards_error (input : JSON) (fetch : JSON -> FetchResult)
        (response : Response) (fields : list (string * JSON)) :
  fetch input = FetchResolves response ->
  ok response = false ->
  bodyJson response = inr (JObject fields) ->
  ((300 <= status response <= 599)%Z -> status response <> 304%Z ->
   POST (BodyResolves input) fetch
   = mkNextResponse
       (Some (JObject
          [ ("error", orValue (lookupField fields "error") (JString "Prediction failed"));
            ("message", orValue (lookupField fields "message")
                                (JString "Unknown error occurred")) ]))
       (status response))
  /\ ((status response < 200 \/ 599 < status response \/ status response = 304)%Z ->
      POST (BodyResolves input) fetch = NextResponse_json (Some mockResult))
  /\ (forall text, lookupField fields "message" = Some (JString text) ->
        isEmpty text = false ->
        orValue (lookupField fields "message") (JString "Unknown error occurred")
        = JString text)
  /\ (lookupField fields "message" = None
      \/ lookupField fields "message" = Some JNull
      \/ lookupField fields "message" = Some (JString "") ->
      orValue (lookupField fields "message") (JString "Unknown error occurred")
      = JString "Unknown error occurred").
Proof.
  intros Hf Hok Hb.
  assert (forall b, POST (BodyResolves input) fetch
                    = if jsonThrows (Some b) (status response)
                      then NextResponse_json (Some mockResult)
                      else mkNextResponse
                             (Some (JObject
                                [ ("error", orValue (lookupField fields "error")
                                                    (JString "Prediction failed"));
                                  ("message", orValue (lookupField fields "message")
                                                      (JString "Unknown error occurred")) ]))
                             (status response)) as HPOST.
  { intros b. unfold POST. now rewrite Hf, Hok, Hb. }
  split; [|split; [|split]].
  - intros Hr Hn. rewrite (HPOST JNull).
    now rewrite (proj2 (forwardable_status response JNull Hok) (conj Hr Hn)).
  - intros Hstatus. rewrite (HPOST JNull).
    destruct (jsonThrows (Some JNull) (status response)) eqn:Ht; [reflexivity|].
    apply (forwardable_status response JNull Hok) in Ht as [Hr Hn]. lia.
  - intros text -> Ht. cbn. now rewrite Ht.
  - intros [-> | [-> | ->]]; reflexivity.
Qed.

Lemma POST_forwards_error_witness :
  POST (BodyResolves JNull) (fun _ => FetchResolves PredictPage.modelNotLoaded)
  = mkNextResponse
      (Some (JObject [ ("error", JString "Prediction failed");
                       ("message", JString "Model not loaded") ]))
      500.
Proof.
  destruct (POST_forwards_error JNull (fun _ => FetchResolves PredictPage.modelNotLoaded)
              PredictPage.modelNotLoaded
              [ ("status", JString "error"); ("message", JString "Model not loaded") ])
    as (H & _); [reflexivity | reflexivity | reflexivity |].
  rewrite H; [reflexivity | vm_compute; split; discriminate | discriminate].
Defined.

End RouteMore.

(** ** The prediction page *)

Module PageMore.
Import JS PredictPage.

Lemma catchBlock_forms (message : string) :
  (catchBlock message = cannotConnect /\ includes message "fetch" = true)
  \/ (catchBlock message = corsError
      /\ includes message "fetch" = false /\ includes message "CORS" = true)
  \/ (catchBlock message = "Prediction failed: " +:+ message
      /\ includes message "fetch" = false /\ includes message "CORS" = false).
Proof.
  unfold catchBlock.
  destruct (includes message "fetch"); [now left|].
  destruct (includes message "CORS"); [right; now left | right; now right].
Qed.

Lemma catchBlock_nonempty (message : string) : isEmpty (catchBlock message) = false.
Proof.
  destruct (catchBlock_forms message) as [[-> _]|[[-> _]|[-> _]]]; reflexivity.
Qed.

(** X19: when a prediction request has settled, loading is off and either
    a payload was stored and the error cleared, or the stored prediction
    is the one from before and the error cell holds a text that is not
    empty: "Cannot connect ..." if the error message contains "fetch", the
    CORS text if it contains "CORS" and not "fetch", and "Prediction
    failed: " followed by the message if it contains neither. *)
Theorem handlePrediction_settles (numberToString : float -> string)
        (st : PageState) (fetched : FetchResult) :
  isLoading (handlePrediction numberToString st fetched) = false
  /\ ((exists payload,
         tryBlock numberToString fetched = SetsPrediction payload
         /\ prediction (handlePrediction numberToString st fetched) = Some payload
         /\ error (handlePrediction numberToString st fetched) = None)
      \/ (exists message,
            tryBlock numberToString fetched = Throws message
            /\ prediction (handlePrediction numberToString st fetched) = prediction st
            /\ error (handlePrediction numberToString st fetched)
               = Some (catchBlock message)
            /\ hasError (handlePrediction numberToString st fetched) = true
            /\ (includes message "fetch" = true ->
                error (handlePrediction numberToString st fetched)
                = Some cannotConnect)
            /\ (includes message "fetch" = false ->
                includes message "CORS" = true ->
                error (handlePrediction numberToString st fetched)
                = Some corsError)
            /\ (includes message "fetch" = false ->
                includes message "CORS" = false ->
                error (handlePrediction numberToString st fetched)
                = Some ("Prediction failed: " +:+ message)))).
Proof.
  unfold handlePrediction.
  destruct (tryBlock numberToString fetched) as [message|payload].
  - split; [reflexivity|]. right. exists message.
    cbn [prediction error isLoading].
    split; [reflexivity|]. split; [reflexivity|]. split; [reflexivity|].
    split; [unfold hasError; cbn; now rewrite catchBlock_nonempty|].
    destruct (catchBlock_forms message)
      as [[-> Hf]|[[-> [Hf Hc]]|[-> [Hf Hc]]]];
      repeat split; intros; congruence.
  - split; [reflexivity|]. left. exists payload. repeat split.
Qed.



Lemma predictionBlock_cases (p : option JSON) :
  (toBoolean p = true /\ exists v, p = Some v /\ predictionBlock p = [ResultsPanel v])
  \/ (toBoolean p = false
      /\ ((exists x, p = Some (JNumber x) /\ predictionBlock p = [NumberText x])
          \/ ((forall x, p <> Some (JNumber x)) /\ predictionBlock p = []))).
Proof.
  destruct p as [[| b | x | s | items | fields]|]; cbn.
  - right. split; [reflexivity|]. right. split; [discriminate | reflexivity].
  - destruct b; [left; eauto | right].
    split; [reflexivity|]. right. split; [discriminate | reflexivity].
  - destruct (truthy x); [left; eauto | right]. split; [reflexivity|]. left. eauto.
  - destruct (isEmpty s); cbn; [right | left; eauto].
    split; [reflexivity|]. right. split; [discriminate | reflexivity].
  - left. eauto.
  - left. eauto.
  - right. split; [reflexivity|]. right. split; [discriminate | reflexivity].
Qed.

(** X21: what the results column shows once a request has settled: never
    the loading panel, and always something.  After a failure it shows the
    error panel and, below it, still what the earlier prediction gave: its
    results if it was a truthy value.  After a success it shows the
    results of the new payload alone if the payload is truthy; a falsy
    payload gives the placeholder, followed by the number as text if the
    payload is the number 0. *)
Theorem panels_after_request (numberToString : float -> string)
        (st : PageState) (fetched : FetchResult) :
  ~ In LoadingPanel (panels (handlePrediction numberToString st fetched))
  /\ panels (handlePrediction numberToString st fetched) <> []
  /\ (forall message, tryBlock numberToString fetched = Throws message ->
        panels (handlePrediction numberToString st fetched)
        = (ErrorPanel (catchBlock message) :: predictionBlock (prediction st))%list
        /\ (forall p, prediction st = Some p -> toBoolean (Some p) = true ->
              panels (handlePrediction numberToString st fetched)
              = [ErrorPanel (catchBlock message); ResultsPanel p]))
  /\ (forall payload, tryBlock numberToString fetched = SetsPrediction payload ->
        (toBoolean (Some payload) = true ->
         panels (handlePrediction numberToString st fetched) = [ResultsPanel payload])
        /\ (toBoolean (Some payload) = false ->
            panels (handlePrediction numberToString st fetched)
            = (Placeholder
               :: match payload with
                  | JNumber x => [NumberText x]
                  | _ => []
                  end)%list)).
Proof.
  assert (forall p, ~ In LoadingPanel (predictionBlock p)) as Hnoload.
  { intros p.
    destruct (predictionBlock_cases p)
      as [(_ & v & _ & ->) | (_ & [(x & _ & ->) | (_ & ->)])];
      simpl; intros H; repeat (destruct H as [H|H]; try discriminate); exact H. }
  unfold handlePrediction.
  destruct (tryBlock numberToString fetched) as [message|payload].
  - assert (panels (mkPageState (prediction st) false (Some (catchBlock message)))
            = (ErrorPanel (catchBlock message) :: predictionBlock (prediction st))%list)
      as Hpanels.
    { unfold panels, hasError. cbn [prediction isLoading error].
      rewrite catchBlock_nonempty. cbn [negb andb].
      rewrite andb_false_r. reflexivity. }
    rewrite Hpanels.
    split; [|split; [discriminate|split; [|discriminate]]].
    + intros [H|H]; [discriminate | exact (Hnoload _ H)].
    + intros m [= <-]. split; [reflexivity|].
      intros p Hp Ht. rewrite Hp.
      destruct (predictionBlock_cases (Some p))
        as [(_ & v & [= <-] & ->) | (Hf & _)]; [reflexivity | congruence].
  - assert (panels (mkPageState (Some payload) false None)
            = ((if toBoolean (Some payload) then [] else [Placeholder])
               ++ predictionBlock (Some payload))%list) as Hpanels.
    { unfold panels, hasError. cbn [prediction isLoading error].
      now destruct (toBoolean (Some payload)). }
    rewrite Hpanels.
    destruct (predictionBlock_cases (Some payload))
      as [(Ht & v & [= <-] & ->) | (Hf & [(x & [= ->] & ->) | (Hnum & ->)])];
      rewrite ?Ht, ?Hf; cbn [app].
    + split; [intros [H|[]]; discriminate|].
      split; [discriminate|]. split; [discriminate|].
      intros p [= <-]. split; [reflexivity | congruence].
    + split; [intros [H|[H|[]]]; discriminate|].
      split; [discriminate|]. split; [discriminate|].
      intros p [= <-]. split; [congruence | reflexivity].
    + split; [intros [H|[]]; discriminate|].
      split; [discriminate|]. split; [discriminate|].
      intros p [= <-]. split; [congruence|]. intros _.
      destruct payload; try reflexivity. now elim (Hnum x).
Qed.

Lemma panels_after_request_witness :
  panels (handlePrediction noNumberFormat
            (mkPageState (Some (JObject [ ("predictedSalary", JNumber 1%float) ]))
                         false None)
            (FetchRejects "Failed to fetch"))
  = [ ErrorPanel cannotConnect;
      ResultsPanel (JObject [ ("predictedSalary", JNumber 1%float) ]) ].
Proof.
  destruct (panels_after_request noNumberFormat
              (mkPageState (Some (JObject [ ("predictedSalary", JNumber 1%float) ]))
                           false None)
              (FetchRejects "Failed to fetch")) as (_ & _ & H & _).
  destruct (H "Failed to fetch" eq_refl) as [_ H'].
  rewrite (H' (JObject [ ("predictedSalary", JNumber 1%float) ]) eq_refl eq_refl).
  reflexivity.
Defined.

(** X22: the bodies the ordered handling does not name.  A body null
    raises the engine's error for reading a property of null; a body with
    status "success" whose data is absent or falsy is stored whole, as the
    prediction; and a body that is not an object (a number, a text, a
    boolean, an array) is stored as it is. *)
Theorem interpretResult_edges (numberToString : float -> string) (result : JSON) :
  (result = JNull ->
   interpretResult numberToString result = Throws (nullPropertyMessage "status"))
  /\ (result <> JNull ->
      prop "status" result = Some (JString "success") ->
      toBoolean (prop "data" result) = false ->
      interpretResult numberToString result = SetsPrediction result)
  /\ ((forall fields, result <> JObject fields) -> result <> JNull ->
      interpretResult numberToString result = SetsPrediction result).
Proof.
  split; [|split].
  - intros ->. reflexivity.
  - intros Hnull Hs Hd. unfold interpretResult. rewrite Hs, Hd. cbn.
    destruct result; try reflexivity. contradiction.
  - intros Hobj Hnull. destruct result; try reflexivity;
      [contradiction | now elim (Hobj fields)].
Qed.

Lemma interpretResult_edges_witness :
  interpretResult noNumberFormat (JObject [ ("status", JString "success") ])
  = SetsPrediction (JObject [ ("status", JString "success") ]).
Proof.
  destruct (interpretResult_edges noNumberFormat
              (JObject [ ("status", JString "success") ])) as (_ & H & _).
  apply H; [discriminate | reflexivity | reflexivity].
Defined.

End PageMore.

(** ** The analytics filters and tabs *)

Module AnalyticsMore.
Import Analytics.

Lemma isActive_true_iff (value : string) : isActive value = true <-> value <> "All".
Proof.
  unfold isActive. rewrite negb_true_iff. apply String.eqb_neq.
Qed.

Lemma queryParams_length (filters : list (string * string)) :
  List.length (queryParams filters) = activeFiltersCount filters.
Proof.
  unfold queryParams, activeFiltersCount.
  induction filters as [|[k v] filters IH]; [reflexivity|]. simpl.
  destruct (isActive v); simpl; now rewrite IH.
Qed.

Lemma queryParams_sublist (filters : list (string * string)) :
  sublist (queryParams filters) filters.
Proof.
  unfold queryParams. induction filters as [|kv filters IH]; simpl.
  - constructor.
  - destruct (isActive (snd kv)).
    + apply sublist_skip. exact IH.
    + apply sublist_cons. exact IH.
Qed.

(** X23: the query of an analytics request has one parameter for each
    filter whose value is not "All", with that value, in the order of the
    filters, and none for the others; their number is activeFiltersCount.
    The Reset All Filters button is shown, and the Reset Filters button
    enabled, exactly when some filter is not "All"; after resetFilters the
    query is empty. *)
Theorem query_params_active (filters : list (string * string)) :
  List.length (queryParams filters) = activeFiltersCount filters
  /\ (forall k v, In (k, v) (queryParams filters) <-> In (k, v) filters /\ v <> "All")
  /\ sublist (queryParams filters) filters
  /\ (showsResetAll filters = true <-> exists k v, In (k, v) filters /\ v <> "All")
  /\ resetDisabled filters = negb (showsResetAll filters)
  /\ queryParams (resetFilters filters) = []
  /\ showsResetAll (resetFilters filters) = false.
Proof.
  assert (forall k v, In (k, v) (queryParams filters)
                      <-> In (k, v) filters /\ v <> "All") as Hin.
  { intros k v. unfold queryParams. rewrite List.filter_In. cbn [snd].
    now rewrite isActive_true_iff. }
  split; [apply queryParams_length|]. split; [exact Hin|].
  split; [apply queryParams_sublist|].
  split.
  { unfold showsResetAll. rewrite <- queryParams_length, Nat.ltb_lt. split.
    - intros Hlen. destruct (queryParams filters) as [|[k v] rest];
        [simpl in Hlen; lia|].
      exists k, v. apply Hin. now left.
    - intros (k & v & H). apply Hin in H.
      destruct (queryParams filters); [contradiction | simpl; lia]. }
  split.
  { unfold resetDisabled, showsResetAll.
    destruct (activeFiltersCount filters); reflexivity. }
  split; reflexivity.
Qed.

(** *** Changing a filter *)

Lemma getEntry_present (k : string) (obj : list (string * string)) :
  In k (List.map fst obj) -> exists v, getEntry k obj = Some v.
Proof.
  induction obj as [|[a b] obj IH]; simpl; [contradiction|].
  destruct (String.eqb_spec a k) as [->|Hak]; [eauto|].
  intros [H|H]; [congruence | now apply IH].
Qed.

Lemma setEntry_present (k v : string) (obj : list (string * string)) :
  In k (List.map fst obj) -> setEntry k v obj = replaceEntry k v obj.
Proof.
  intros H. unfold setEntry. now destruct (getEntry_present k obj H) as [w ->].
Qed.

Lemma getEntry_replaceEntry (k v k' : string) (obj : list (string * string)) :
  In k (List.map fst obj) ->
  getEntry k' (replaceEntry k v obj)
  = if String.eqb k k' then Some v else getEntry k' obj.
Proof.
  induction obj as [|[a b] obj IH]; simpl; [contradiction|].
  destruct (String.eqb_spec a k) as [->|Hak]; simpl.
  - intros _. destruct (String.eqb_spec k k'); reflexivity.
  - intros [H|H]; [congruence|].
    destruct (String.eqb_spec a k') as [->|Hak'].
    + destruct (String.eqb_spec k k'); [congruence | reflexivity].
    + now apply IH.
Qed.

Lemma replaceEntry_keys (k v : string) (obj : list (string * string)) :
  List.map fst (replaceEntry k v obj) = List.map fst obj.
Proof.
  induction obj as [|[a b] obj IH]; simpl; [reflexivity|].
  destruct (String.eqb a k); simpl; [reflexivity | now rewrite IH].
Qed.

Lemma replaceEntry_twice (k v v' : string) (obj : list (string * string)) :
  replaceEntry k v' (replaceEntry k v obj) = replaceEntry k v' obj.
Proof.
  induction obj as [|[a b] obj IH]; simpl; [reflexivity|].
  destruct (String.eqb a k) eqn:E; simpl; rewrite E; [reflexivity | now rewrite IH].
Qed.

Lemma getEntry_setEntry (k v k' : string) (obj : list (string * string)) :
  In k (List.map fst obj) ->
  getEntry k' (setEntry k v obj)
  = if String.eqb k k' then Some v else getEntry k' obj.
Proof.
  intros H. rewrite setEntry_present by exact H. now apply getEntry_replaceEntry.
Qed.

Lemma setEntry_keys (k v : string) (obj : list (string * string)) :
  In k (List.map fst obj) -> List.map fst (setEntry k v obj) = List.map fst obj.
Proof.
  intros H. rewrite setEntry_present by exact H. apply replaceEntry_keys.
Qed.

Lemma In_getEntry (obj : list (string * string)) :
  NoDup (List.map fst obj) ->
  forall k v, In (k, v) obj <-> getEntry k obj = Some v.
Proof.
  induction obj as [|[a b] obj IH]; simpl; intros Hnd k v.
  - split; [contradiction | discriminate].
  - apply NoDup_cons in Hnd as [Ha Hnd].
    destruct (String.eqb_spec a k) as [->|Hak].
    + split.
      * intros [[= ->]|H]; [reflexivity|]. exfalso. apply Ha.
        apply list_elem_of_In, List.in_map_iff. now exists (k, v).
      * intros [= ->]. now left.
    + rewrite <- (IH Hnd). split; [intros [[= -> ->]|H]; [congruence | exact H]|].
      now right.
Qed.

(** X24: the filters are an object, so their names are distinct.  For a
    name the object has, handleFilterChange stores the value under that
    name and leaves the other filters, the names and their order as they
    were; the last of two changes of one filter wins; and the query then
    has a parameter for that name exactly when the value is not "All",
    with that value. *)
Theorem handleFilterChange_effect (filterName value : string)
        (prev : list (string * string)) :
  NoDup (List.map fst prev) ->
  In filterName (List.map fst prev) ->
  getEntry filterName (handleFilterChange filterName value prev) = Some value
  /\ (forall other, other <> filterName ->
        getEntry other (handleFilterChange filterName value prev)
        = getEntry other prev)
  /\ List.map fst (handleFilterChange filterName value prev) = List.map fst prev
  /\ (forall value',
        handleFilterChange filterName value'
          (handleFilterChange filterName value prev)
        = handleFilterChange filterName value' prev)
  /\ (forall v, In (filterName, v)
                   (queryParams (handleFilterChange filterName value prev))
                <-> v = value /\ value <> "All").
Proof.
  intros Hnd Hkey. unfold handleFilterChange.
  assert (getEntry filterName (setEntry filterName value prev) = Some value) as Hset
      by (rewrite getEntry_setEntry by exact Hkey; now rewrite String.eqb_refl).
  split; [exact Hset|].
  split.
  { intros other Hne. rewrite getEntry_setEntry by exact Hkey.
    destruct (String.eqb_spec filterName other); [congruence | reflexivity]. }
  split; [now apply setEntry_keys|].
  split.
  { intros value'.
    rewrite (setEntry_present filterName value' prev Hkey).
    rewrite (setEntry_present filterName value prev Hkey).
    rewrite setEntry_present by (now rewrite replaceEntry_keys).
    apply replaceEntry_twice. }
  intros v. unfold queryParams. rewrite List.filter_In. cbn [snd].
  rewrite isActive_true_iff, In_getEntry, Hset
    by (now rewrite setEntry_keys).
  split; [intros [[= ->] H]; now split | intros [-> H]; now split].
Qed.

Lemma handleFilterChange_effect_witness :
  queryParams (handleFilterChange "location" "Germany" initialFilters)
  = [ ("location", "Germany") ]
  /\ getEntry "location" (handleFilterChange "location" "Germany" initialFilters)
     = Some "Germany".
Proof.
  split; [reflexivity|].
  apply (handleFilterChange_effect "location" "Germany" initialFilters).
  - apply (bool_decide_unpack _). vm_compute. exact I.
  - simpl. tauto.
Defined.

(** *** Tabs *)

(** X26: whatever the active tab, known or not, its content follows the
    same classification of filteredRecords: nothing while there is no
    data, the no-data state for 0, the insufficient-data state for 1 to 9,
    and charts for every other value; an unknown tab name shows the
    overview.  A negative count therefore shows charts too, the overview
    with its cards marked as not valid. *)
Theorem tabs_follow_classification (activeTab : string) (d : AnalyticsData) :
  shown (renderTabContent None activeTab) = ShowsNothing
  /\ shown (renderTabContent (Some d) activeTab)
     = (if (filteredRecords (metadata d) =? 0)%Z then ShowsEmpty no_data
        else if (0 <? filteredRecords (metadata d))%Z
                && (filteredRecords (metadata d) <? 10)%Z
             then ShowsEmpty insufficient_data
             else ShowsCharts)
  /\ (~ In activeTab ["overview"; "geographic"; "skills"; "experience";
                       "companies"; "trends"] ->
      renderTabContent (Some d) activeTab = inl (OverviewTab (Some d)))
  /\ ((filteredRecords (metadata d) < 0)%Z ->
      OverviewTab (Some d) = ChartSet false).
Proof.
  split; [|split; [|split]].
  - unfold renderTabContent.
    repeat match goal with
           | |- context [if ?c then _ else _] => destruct c
           end; reflexivity.
  - unfold renderTabContent, GeographicTab, SkillsTab, ExperienceTab,
      CompaniesTab, TrendsTab, guardedTab, OverviewTab, hasNoData,
      hasInsufficientData.
    destruct (filteredRecords (metadata d) =? 0)%Z;
      destruct ((0 <? filteredRecords (metadata d))%Z
                && (filteredRecords (metadata d) <? 10)%Z);
      cbn [orb];
      repeat match goal with
             | |- context [if String.eqb ?a ?b then _ else _] =>
                 destruct (String.eqb a b)
             end; reflexivity.
  - intros Hnot. unfold renderTabContent.
    repeat match goal with
           | |- context [if String.eqb ?a ?b then _ else _] =>
               destruct (String.eqb_spec a b) as [->|?];
               [try reflexivity; exfalso; apply Hnot; simpl; tauto|]
           end.
    reflexivity.
  - intros Hneg. unfold OverviewTab, hasNoData, hasInsufficientData, hasMinimumData.
    destruct (Z.eqb_spec (filteredRecords (metadata d)) 0); [lia|].
    destruct (Z.ltb_spec 0 (filteredRecords (metadata d))); [lia|].
    destruct (Z.leb_spec 10 (filteredRecords (metadata d))); [lia|].
    reflexivity.
Qed.

Lemma tabs_follow_classification_witness :
  renderTabContent (Some (mkAnalyticsData (mkAnalyticsMetadata 15000 9))) "charts"
  = inl (OverviewTab (Some (mkAnalyticsData (mkAnalyticsMetadata 15000 9)))).
Proof.
  apply (tabs_follow_classification "charts"
           (mkAnalyticsData (mkAnalyticsMetadata 15000 9))).
  apply (bool_decide_unpack _). vm_compute. exact I.
Defined.

(** X25: the filters the dashboard can hold always have the four names
    location, experienceLevel, companySize and salaryRange, in this order;
    so a query has at most four parameters, each under one of these names
    and with a value other than "All". *)
Theorem reachable_filters_names (filters : list (string * string)) :
  filtersReachable filters ->
  List.map fst filters = filterNames
  /\ (List.length (queryParams filters) <= 4)%nat
  /\ (forall k v, In (k, v) (queryParams filters) ->
        In k filterNames /\ v <> "All").
Proof.
  intros Hreach.
  assert (List.map fst filters = filterNames) as Hkeys.
  { induction Hreach as [|name value filters _ IH Hname|filters _ _];
      [reflexivity| |reflexivity].
    unfold handleFilterChange. rewrite setEntry_keys; [exact IH|].
    now rewrite IH. }
  split; [exact Hkeys|]. split.
  - unfold queryParams.
    pose proof (List.filter_length_le (fun kv : string * string => isActive (snd kv))
                                      filters) as Hle.
    assert (List.length filters = 4%nat) as Hlen
        by (rewrite <- (List.length_map fst), Hkeys; reflexivity).
    lia.
  - intros k v Hin. unfold queryParams in Hin.
    apply List.filter_In in Hin as [Hin Hact]. split.
    + rewrite <- Hkeys. apply List.in_map_iff. now exists (k, v).
    + cbn [snd] in Hact. unfold isActive in Hact.
      apply negb_true_iff, String.eqb_neq in Hact. exact Hact.
Qed.

Lemma reachable_filters_names_witness :
  List.map fst (handleFilterChange "salaryRange" "150k+" initialFilters) = filterNames.
Proof.
  apply (reachable_filters_names (handleFilterChange "salaryRange" "150k+" initialFilters)).
  apply filters_change; [apply filters_initial | simpl; tauto].
Defined.

End AnalyticsMore.
